(** * vdator: paste parser and codec tables

    A shallow embedding of [vdator/paste_parser.py] and
    [vdator/codecs_parser.py].

    Text is modelled as [string] over 8-bit code points (Latin-1); the
    Python [str] methods used by the parser are given with the behaviour
    CPython has on such text.  Code that can raise returns in the error
    monad [result]; the loop of [parse] is a function of the local
    variables and the line, folded over the lines.  The four track-name
    formatters of [bdinfo_parser] are collaborators outside these two
    modules: they are the variables of the section that holds the parser,
    total functions from strings to strings. *)

From Stdlib Require Import String Ascii List ZArith Bool Lia.
From stdpp Require Import base option list strings gmap fin_maps.
Import ListNotations.

Local Open Scope string_scope.
Local Open Scope list_scope.

(** ** Python [str] methods *)

Module Py.

(** [c.isspace()] for a code point below 256. *)
Definition isspace (c : ascii) : bool :=
  let n := N_of_ascii c in
  (((9 <=? n) && (n <=? 13)) || ((28 <=? n) && (n <=? 32))
   || (n =? 133) || (n =? 160))%N.

(** [c.lower()] for a code point below 256: A-Z and the Latin-1 capitals
    (0xC0-0xDE except the multiplication sign 0xD7) move up by 32. *)
Definition lower_char (c : ascii) : ascii :=
  let n := N_of_ascii c in
  if (((65 <=? n) && (n <=? 90))
      || ((192 <=? n) && (n <=? 222) && negb (n =? 215)))%N
  then ascii_of_N (n + 32) else c.

(** [s.lower()] *)
Fixpoint lower (s : string) : string :=
  match s with
  | EmptyString => EmptyString
  | String c t => String (lower_char c) (lower t)
  end.

(** [s.startswith(p)] *)
Fixpoint startswith (s p : string) {struct p} : bool :=
  match p, s with
  | EmptyString, _ => true
  | String _ _, EmptyString => false
  | String a p', String b s' => if Ascii.eqb a b then startswith s' p' else false
  end.

(** [sub in s] *)
Fixpoint contains (sub s : string) : bool :=
  startswith s sub
  || match s with
     | EmptyString => false
     | String _ t => contains sub t
     end.

(** [s.lstrip()], [s.rstrip()], [s.strip()] *)
Fixpoint lstrip (s : string) : string :=
  match s with
  | EmptyString => EmptyString
  | String c t => if isspace c then lstrip t else s
  end.

(** [s.rstrip(chars)] for the set of characters [drop]. *)
Fixpoint rstrip_where (drop : ascii -> bool) (s : string) : string :=
  match s with
  | EmptyString => EmptyString
  | String c t =>
      match rstrip_where drop t with
      | EmptyString => if drop c then EmptyString else String c EmptyString
      | r => String c r
      end
  end.

Definition rstrip : string -> string := rstrip_where isspace.
Definition strip (s : string) : string := rstrip (lstrip s).

(** [s.rstrip(")")] *)
Definition rstrip_paren : string -> string :=
  rstrip_where (fun c => Ascii.eqb c ")").

(** [s.split(sep)] for a one-character separator. *)
Fixpoint split_char (sep : ascii) (s : string) : list string :=
  match s with
  | EmptyString => [EmptyString]
  | String c t =>
      if Ascii.eqb c sep then EmptyString :: split_char sep t
      else match split_char sep t with
           | [] => [String c EmptyString]
           | w :: ws => String c w :: ws
           end
  end.

(** [s.split(sep, 1)] for a one-character separator. *)
Fixpoint split_char_1 (sep : ascii) (s : string) : list string :=
  match s with
  | EmptyString => [EmptyString]
  | String c t =>
      if Ascii.eqb c sep then [EmptyString; t]
      else match split_char_1 sep t with
           | [] => [String c EmptyString]
           | w :: ws => String c w :: ws
           end
  end.

(** [sep.join(parts)] *)
Fixpoint join (sep : string) (parts : list string) : string :=
  match parts with
  | [] => EmptyString
  | [w] => w
  | w :: ws => w +:+ sep +:+ join sep ws
  end.

(** [parts[:-1]] *)
Definition drop_last (parts : list string) : list string := removelast parts.

(** Line boundaries of [str.splitlines] below code point 256:
    LF, VT, FF, CR, FS, GS, RS and NEL. *)
Definition is_linebreak (c : ascii) : bool :=
  let n := N_of_ascii c in
  (((10 <=? n) && (n <=? 13)) || ((28 <=? n) && (n <=? 30)) || (n =? 133))%N.

(** [text.splitlines()]: [cur] is the line being read; a line break
    emits it, and the end of the text emits it when it is not empty. *)
Fixpoint splitlines_from (cur : string) (s : string) : list string :=
  match s with
  | EmptyString =>
      match cur with EmptyString => [] | _ => [cur] end
  | String c t =>
      if is_linebreak c then
        match t with
        | String d t' =>
            if Ascii.eqb c "013" && Ascii.eqb d "010"
            then cur :: splitlines_from EmptyString t'
            else cur :: splitlines_from EmptyString t
        | EmptyString => [cur]
        end
      else splitlines_from (cur +:+ String c EmptyString) t
  end.

Definition splitlines (text : string) : list string :=
  splitlines_from EmptyString text.

(** Whether a colon comes in [s] before any opening parenthesis.  Not a
    method of [str]: it tells when [s.split("(")[0]] still has the colon
    that [s] has. *)
Fixpoint colon_before_paren (s : string) : bool :=
  match s with
  | EmptyString => false
  | String c t =>
      if Ascii.eqb c ":" then true
      else if Ascii.eqb c "(" then false
      else colon_before_paren t
  end.

(** [s.replace(old, new)] for an [old] that is not empty: the text is
    read from left to right, each match of [old] gives [new] and is
    passed over, [skip] being the number of its characters still to pass. *)
Fixpoint replace_from (old new : string) (skip : nat) (s : string) : string :=
  match s with
  | EmptyString => EmptyString
  | String c t =>
      match skip with
      | S k => replace_from old new k t
      | O =>
          if startswith s old
          then new +:+ replace_from old new (String.length old - 1) t
          else String c (replace_from old new 0 t)
      end
  end.

Definition replace (old new s : string) : string := replace_from old new 0 s.

(** The number of backticks that [s] begins with.  Not a method of
    [str]: it measures how close a text is to opening a code block. *)
Fixpoint leading_ticks (s : string) : nat :=
  match s with
  | EmptyString => 0
  | String c t => if Ascii.eqb c "`" then S (leading_ticks t) else 0
  end.

(** [bool(s)] of a string. *)
Definition truthy (s : string) : bool :=
  match s with EmptyString => false | _ => true end.

End Py.

(** ** Exceptions and the error monad *)

Inductive exn : Type :=
| IndexError
| AttributeError
| KeyError.

Inductive result (A : Type) : Type :=
| Ok (a : A)
| Raise (e : exn).
Arguments Ok {A} a.
Arguments Raise {A} e.

Definition bind {A B : Type} (r : result A) (k : A -> result B) : result B :=
  match r with
  | Ok a => k a
  | Raise e => Raise e
  end.

Notation "'let*' x ':=' r 'in' k" := (bind r (fun x => k))
  (at level 10, x pattern, r at level 100, k at level 200).

(** [xs[i]] of a list, for a subscript that is not negative. *)
Definition subscript {A : Type} (xs : list A) (i : nat) : result A :=
  match xs !! i with
  | Some x => Ok x
  | None => Raise IndexError
  end.

(** The position a Python subscript [i] denotes in a list of length [n]:
    negative subscripts count from the end. *)
Definition py_index (n : nat) (i : Z) : option nat :=
  if ((0 <=? i) && (i <? Z.of_nat n))%Z then Some (Z.to_nat i)
  else if ((- Z.of_nat n <=? i) && (i <? 0))%Z then Some (Z.to_nat (Z.of_nat n + i))
  else None.

(** ** [codecs_parser.py] *)

Module CodecsParser.

(** A lookup returns the recorded string or Python's [False]. *)
Inductive lookup_result : Type :=
| PyFalse
| PyStr (s : string).

(** The attributes set by [__init__]. *)
Record t : Type := mk {
  video_codecs : gmap string string;
  audio_codecs : gmap string string;
  audio_codec_title_names : gmap string string;
  sub_codecs : gmap string string;
  chapter_codecs : gmap string string;
  codec_ext : gmap string string;
}.

(** [{**a, **b}]: the entries of [b] override those of [a]. *)
Definition dict_merge (a b : gmap string string) : gmap string string := b ∪ a.

Definition __init__ : t :=
  let video := list_to_map
    [ ("h264/AVC", ".h264"); ("h265/HEVC", ".h265"); ("MPEG1", ".m1v");
      ("MPEG2", ".m2v"); ("VC-1", ".vc1") ] in
  let audio := list_to_map
    [ ("AC3", ".ac3"); ("DTS Master Audio", ".dtsma"); ("DTS", ".dts");
      ("E-AC3", "eac3"); ("FLAC Audio", ".flac"); ("RAW/PCM", ".pcm");
      ("TrueHD/AC3", ".thd+ac3") ] in
  let title := list_to_map
    [ ("DTS Audio", "DTS"); ("DTS-HD Master Audio", "DTS-HD.MA");
      ("Dolby Digital Audio", "DD"); ("Dolby TrueHD Audio", "TrueHD");
      ("FLAC Audio", "FLAC") ] in
  let sub := list_to_map
    [ ("Subtitle (PGS)", ".sup"); ("Subtitle (DVD)", ".sup") ] in
  let chapter := list_to_map [ ("Chapters", ".txt") ] in
  {| video_codecs := video;
     audio_codecs := audio;
     audio_codec_title_names := title;
     sub_codecs := sub;
     chapter_codecs := chapter;
     codec_ext := dict_merge (dict_merge (dict_merge video audio) sub) chapter |}.

(** [codec in d] *)
Definition dict_has (d : gmap string string) (codec : string) : bool :=
  bool_decide (is_Some (d !! codec)).

Definition is_video (self : t) (codec : string) : bool :=
  if dict_has (video_codecs self) codec then true else false.
Definition is_audio (self : t) (codec : string) : bool :=
  if dict_has (audio_codecs self) codec then true else false.
Definition is_sub (self : t) (codec : string) : bool :=
  if dict_has (sub_codecs self) codec then true else false.
Definition is_chapter (self : t) (codec : string) : bool :=
  if dict_has (chapter_codecs self) codec then true else false.

(** [d[codec]] of a dict: a key that is absent raises [KeyError]. *)
Definition dict_subscript (d : gmap string string) (codec : string) : result string :=
  match d !! codec with
  | Some v => Ok v
  | None => Raise KeyError
  end.

(** The body that the two lookup methods share:
    [if codec not in d: return False] and then [return d[codec]]. *)
Definition guarded_lookup (d : gmap string string) (codec : string)
  : result lookup_result :=
  if negb (dict_has d codec) then Ok PyFalse
  else
    let* v := dict_subscript d codec in
    Ok (PyStr v).

(** The methods read [self] and assign nothing: each gives what it
    returns or raises together with the object as it leaves it. *)
Definition get_codec_ext (self : t) (codec : string) : result lookup_result * t :=
  (guarded_lookup (codec_ext self) codec, self).

Definition get_audio_codec_title_name (self : t) (codec : string)
  : result lookup_result * t :=
  (guarded_lookup (audio_codec_title_names self) codec, self).

End CodecsParser.

(** ** [paste_parser.py] *)

Module PasteParser.

(** *** Module-level configuration *)

(** The three environment variables, each set or unset. *)
Record environ : Type := mk_environ {
  env_IGNORE_AFTER_LINE : option string;
  env_IGNORE_AFTER_LINE_METHOD : option string;
  env_IGNORE_UNTIL_BLANK_LINE_PREFIXES : option string;
}.

Record config : Type := mk_config {
  IGNORE_AFTER_LINE : string;
  IGNORE_AFTER_LINE_METHOD : string;
  IGNORE_UNTIL_BLANK_LINE_PREFIXES : list string;
}.

(** [os.environ.get(name).strip()]: the lookup gives [None] for an unset
    variable, and [None] has no [strip]. *)
Definition environ_get_strip (v : option string) : result string :=
  match v with
  | Some s => Ok (Py.strip s)
  | None => Raise AttributeError
  end.

(** [os.getenv(name, "")] *)
Definition getenv_default (v : option string) : string :=
  match v with
  | Some s => s
  | None => EmptyString
  end.

(** The assignments at the top of the module, run when it is imported. *)
Definition load_config (env : environ) : result config :=
  let* after := environ_get_strip (env_IGNORE_AFTER_LINE env) in
  let* method := environ_get_strip (env_IGNORE_AFTER_LINE_METHOD env) in
  Ok {| IGNORE_AFTER_LINE := after;
        IGNORE_AFTER_LINE_METHOD := method;
        IGNORE_UNTIL_BLANK_LINE_PREFIXES :=
          map Py.strip
            (Py.split_char ","
               (Py.strip (getenv_default (env_IGNORE_UNTIL_BLANK_LINE_PREFIXES env)))) |}.

(** *** Enumerations *)

Inductive BDInfoType : Type :=
| BD_QUICK_SUMMARY
| BD_PLAYLIST_REPORT.

Inductive Section_ : Type :=
| QUICK_SUMMARY
| MEDIAINFO
| PLAYLIST_REPORT
| EAC3TO_LOG.

Inductive Section2 : Type :=
| PLAYLIST_VIDEO
| PLAYLIST_AUDIO
| PLAYLIST_SUBTITLES.

Inductive Section3 : Type :=
| PLAYLIST_INNER_VIDEO
| PLAYLIST_INNER_AUDIO.

(** *** The local variables of [parse] *)

(** The [bdinfo] dictionary: three lists and the optional ["type"] key. *)
Record bdinfo_dict : Type := mk_bdinfo {
  video : list string;
  audio : list string;
  subtitle : list string;
  type_ : option BDInfoType;
}.

Record locals : Type := mk_locals {
  bdinfo : bdinfo_dict;
  mediainfo : list string;
  eac3to : list (list string);
  eac3to_index : Z;
  sect : option Section_;
  sect2 : option Section2;
  sect3 : option Section3;
  ignore_next_lines : bool;
  did_first_mediainfo : bool;
}.

Definition initial : locals :=
  {| bdinfo := {| video := []; audio := []; subtitle := []; type_ := None |};
     mediainfo := [];
     eac3to := [];
     eac3to_index := -1;
     sect := None; sect2 := None; sect3 := None;
     ignore_next_lines := false;
     did_first_mediainfo := false |}.

Definition with_bdinfo (b : bdinfo_dict) (st : locals) : locals :=
  mk_locals b (mediainfo st) (eac3to st) (eac3to_index st) (sect st) (sect2 st)
            (sect3 st) (ignore_next_lines st) (did_first_mediainfo st).
Definition with_mediainfo (m : list string) (st : locals) : locals :=
  mk_locals (bdinfo st) m (eac3to st) (eac3to_index st) (sect st) (sect2 st)
            (sect3 st) (ignore_next_lines st) (did_first_mediainfo st).
Definition with_eac3to (e : list (list string)) (st : locals) : locals :=
  mk_locals (bdinfo st) (mediainfo st) e (eac3to_index st) (sect st) (sect2 st)
            (sect3 st) (ignore_next_lines st) (did_first_mediainfo st).
Definition with_eac3to_index (i : Z) (st : locals) : locals :=
  mk_locals (bdinfo st) (mediainfo st) (eac3to st) i (sect st) (sect2 st)
            (sect3 st) (ignore_next_lines st) (did_first_mediainfo st).
Definition with_sect (s : option Section_) (st : locals) : locals :=
  mk_locals (bdinfo st) (mediainfo st) (eac3to st) (eac3to_index st) s (sect2 st)
            (sect3 st) (ignore_next_lines st) (did_first_mediainfo st).
Definition with_sect2 (s : option Section2) (st : locals) : locals :=
  mk_locals (bdinfo st) (mediainfo st) (eac3to st) (eac3to_index st) (sect st) s
            (sect3 st) (ignore_next_lines st) (did_first_mediainfo st).
Definition with_sect3 (s : option Section3) (st : locals) : locals :=
  mk_locals (bdinfo st) (mediainfo st) (eac3to st) (eac3to_index st) (sect st)
            (sect2 st) s (ignore_next_lines st) (did_first_mediainfo st).
Definition with_ignore_next_lines (b : bool) (st : locals) : locals :=
  mk_locals (bdinfo st) (mediainfo st) (eac3to st) (eac3to_index st) (sect st)
            (sect2 st) (sect3 st) b (did_first_mediainfo st).
Definition with_did_first_mediainfo (b : bool) (st : locals) : locals :=
  mk_locals (bdinfo st) (mediainfo st) (eac3to st) (eac3to_index st) (sect st)
            (sect2 st) (sect3 st) (ignore_next_lines st) b.

(** [bdinfo["video"].append(x)] and its siblings; [bdinfo["type"] = k]. *)
Definition append_video (x : string) (st : locals) : locals :=
  let b := bdinfo st in
  with_bdinfo (mk_bdinfo (video b ++ [x]) (audio b) (subtitle b) (type_ b)) st.
Definition append_audio (x : string) (st : locals) : locals :=
  let b := bdinfo st in
  with_bdinfo (mk_bdinfo (video b) (audio b ++ [x]) (subtitle b) (type_ b)) st.
Definition append_subtitle (x : string) (st : locals) : locals :=
  let b := bdinfo st in
  with_bdinfo (mk_bdinfo (video b) (audio b) (subtitle b ++ [x]) (type_ b)) st.
Definition set_type (k : BDInfoType) (st : locals) : locals :=
  let b := bdinfo st in
  with_bdinfo (mk_bdinfo (video b) (audio b) (subtitle b) (Some k)) st.

(** [mediainfo.append(l)] *)
Definition append_mediainfo (l : string) (st : locals) : locals :=
  with_mediainfo (mediainfo st ++ [l]) st.

(** [eac3to[eac3to_index].append(l)] *)
Definition append_eac3to (l : string) (st : locals) : result locals :=
  match py_index (length (eac3to st)) (eac3to_index st) with
  | Some k =>
      let* log := subscript (eac3to st) k in
      Ok (with_eac3to (<[k := log ++ [l]]> (eac3to st)) st)
  | None => Raise IndexError
  end.

(** [eac3to_index] is the position of the last list of [eac3to]: the
    relation that lines 102-103 keep between the two variables. *)
Definition index_is_last (st : locals) : Prop :=
  eac3to_index st = (Z.of_nat (length (eac3to st)) - 1)%Z.

(** What holds of the two variables wherever the loop stands: the index
    is that of the last log, and a log is there while [sect] is
    [EAC3TO_LOG]. *)
Definition log_inv (st : locals) : Prop :=
  index_is_last st /\ (sect st = Some EAC3TO_LOG -> eac3to st <> []).

(** A log as [parse] builds it: its header line first, and no line that
    begins with ["Done."].  Not part of the source. *)
Definition log_with_header (log : list string) : Prop :=
  (exists h rest,
      log = h :: rest /\ Py.startswith (Py.lower (Py.strip h)) "eac3to v" = true)
  /\ Forall (fun x => Py.startswith x "Done." = false) log.

(** The track lists are empty and no report section is open while the
    ["type"] key is not set.  Not part of the source. *)
Definition no_report_yet (st : locals) : Prop :=
  type_ (bdinfo st) = None ->
  sect st <> Some QUICK_SUMMARY /\ sect st <> Some PLAYLIST_REPORT
  /\ video (bdinfo st) = [] /\ audio (bdinfo st) = [] /\ subtitle (bdinfo st) = [].

(** *** The compatibility-track marker *)

Definition marker_test : string := "ac3 embedded".
Definition marker_pattern : string := "(ac3 embedded:".
Definition compat_prefix : string := "Compatibility Track / Dolby Digital Audio / ".

(** [re.split(pat, s, flags=re.IGNORECASE)] for a pattern that is a
    literal in lower case: the text is cut at the matches found from
    left to right, [cur] being the piece under construction and [skip]
    the number of characters of the current match still to pass. *)
Fixpoint re_split_from (pat : string) (cur : string) (skip : nat) (s : string)
  : list string :=
  match s with
  | EmptyString => [cur]
  | String c t =>
      match skip with
      | S k => re_split_from pat cur k t
      | O =>
          if Py.startswith (Py.lower s) pat
          then cur :: re_split_from pat EmptyString (String.length pat - 1) t
          else re_split_from pat (cur +:+ String c EmptyString) 0 t
      end
  end.

Definition re_split_marker (s : string) : list string :=
  re_split_from marker_pattern EmptyString 0 s.

(** [s] reads [pre ++ m ++ rest], where [m] is the first place in [s] at
    which the marker pattern matches, in any letter case: no match starts
    inside [pre].  Not part of the source: it says where [re.split] cuts
    first. *)
Definition first_marker (s pre m rest : string) : Prop :=
  s = pre +:+ m +:+ rest /\ Py.lower m = marker_pattern
  /\ forall x y, pre = x +:+ y -> y <> "" ->
       Py.startswith (Py.lower (y +:+ m +:+ rest)) marker_pattern = false.

(** A text in which the words ["ac3 embedded"] occur only where the
    whole of ["(ac3 embedded:"] occurs, in any letter case.  Not part of
    the source: the texts on which the test of lines 118 and 188 and the
    pattern of lines 119 and 189 agree. *)
Definition marker_complete (s : string) : Prop :=
  Py.contains marker_test (Py.lower s) = true ->
  Py.contains marker_pattern (Py.lower s) = true.

(** A line that is [marker_complete] as a whole and in the stripped text
    after its first colon. *)
Definition markers_complete (l : string) : Prop :=
  marker_complete l
  /\ forall key after,
      Py.split_char_1 ":" l = [key; after] -> marker_complete (Py.strip after).

(** *** The loop of [parse] *)

(** How one pass through the loop body ends: at its end or at a
    [continue], with the locals as they then are, or at the [break]. *)
Inductive signal : Type :=
| Next (st : locals)
| Break.

Section Parse.

(** The methods of [self.bdinfo_parser] called by [parse].  The two
    playlist formatters return a value that is tested for truth; the
    empty string stands for a falsy one. *)
Variable format_track_name : string -> string.
Variable format_video_track_name : string -> string.
Variable playlist_report_format_video_track_name : string -> string.
Variable playlist_report_format_audio_track_name : string -> string.

(** The module-level constants. *)
Variable cfg : config.

Definition _isIgnoreAfterLine (l : string) : bool :=
  if String.eqb (IGNORE_AFTER_LINE_METHOD cfg) "equals" then
    if String.eqb (IGNORE_AFTER_LINE cfg) l then true else false
  else if String.eqb (IGNORE_AFTER_LINE_METHOD cfg) "contains" then
    if Py.contains (IGNORE_AFTER_LINE cfg) l then true else false
  else false.

(** The guard of lines 80-83: the list is not empty and its first
    entry is not the empty string. *)
Definition prefixes_enabled : bool :=
  match IGNORE_UNTIL_BLANK_LINE_PREFIXES cfg with
  | [] => false
  | x :: _ => negb (String.eqb x "")
  end.

(** The [for x in IGNORE_UNTIL_BLANK_LINE_PREFIXES] loop: does some
    entry begin the line [l3]? *)
Definition starts_with_prefix (l3 : string) : bool :=
  existsb (fun x => Py.startswith l3 x) (IGNORE_UNTIL_BLANK_LINE_PREFIXES cfg).

(** Whether the line [l] sets the soft-skip flag when it comes to lines
    80-88: the guard and the loop over the prefixes in one test.  Not a
    function of the source; [check_prefixes] below is. *)
Definition skip_trigger (l : string) : bool :=
  prefixes_enabled && starts_with_prefix (Py.lower (Py.strip l)).

(** Lines 80-88. *)
Definition check_prefixes (st : locals) (l : string) : locals :=
  if prefixes_enabled then
    let l3 := Py.lower (Py.strip l) in
    if starts_with_prefix l3 then with_ignore_next_lines true st else st
  else st.

(** Whether the lower-cased line [l2] takes one of the four branches of
    lines 94-109.  Not a function of the source: the disjunction of the
    four tests of [update_section] below. *)
Definition is_header (l2 : string) : bool :=
  Py.startswith l2 "quick summary" || Py.startswith l2 "playlist report"
  || Py.startswith l2 "eac3to v" || Py.startswith l2 "general".

(** Lines 94-109: determine the current section. *)
Definition update_section (st : locals) (l2 : string) : locals :=
  if Py.startswith l2 "quick summary" then
    set_type BD_QUICK_SUMMARY (with_sect (Some QUICK_SUMMARY) st)
  else if Py.startswith l2 "playlist report" then
    set_type BD_PLAYLIST_REPORT (with_sect (Some PLAYLIST_REPORT) st)
  else if Py.startswith l2 "eac3to v" then
    with_eac3to_index (eac3to_index st + 1)
      (with_eac3to (eac3to st ++ [[]]) (with_sect (Some EAC3TO_LOG) st))
  else if Py.startswith l2 "general" then
    if did_first_mediainfo st then with_sect None st
    else with_did_first_mediainfo true (with_sect (Some MEDIAINFO) st)
  else st.

(** Lines 112-142. *)
Definition quick_summary_line (st : locals) (l l2 : string) : result locals :=
  if Py.startswith l2 "video:" then
    let* track_name := subscript (Py.split_char_1 ":" l) 1 in
    Ok (append_video (format_video_track_name track_name) st)
  else if Py.startswith l2 "audio:" then
    let* after := subscript (Py.split_char_1 ":" l) 1 in
    let audio_name := Py.strip after in
    if Py.contains marker_test (Py.lower audio_name) then
      let audio_parts := re_split_marker audio_name in
      let* part0 := subscript audio_parts 0 in
      let st := append_audio (format_track_name part0) st in
      let* part1 := subscript audio_parts 1 in
      let compat_track := compat_prefix +:+ Py.rstrip_paren (Py.strip part1) in
      Ok (append_audio (format_track_name compat_track) st)
    else
      let* l :=
        (if Py.contains "(" l then subscript (Py.split_char "(" l) 0 else Ok l) in
      let l := Py.strip l in
      let* name := subscript (Py.split_char_1 ":" l) 1 in
      Ok (append_audio (format_track_name name) st)
  else if Py.startswith l2 "subtitle:" then
    let* name := subscript (Py.split_char_1 ":" l) 1 in
    Ok (append_subtitle (format_track_name name) st)
  else Ok st.

(** Lines 146-151: the headings of a playlist report. *)
Definition playlist_heading (st : locals) (l2 : string) : locals :=
  if Py.startswith l2 "video:" then with_sect2 (Some PLAYLIST_VIDEO) st
  else if Py.startswith l2 "audio:" then with_sect2 (Some PLAYLIST_AUDIO) st
  else if Py.startswith l2 "subtitles:" then with_sect2 (Some PLAYLIST_SUBTITLES) st
  else st.

(** Lines 188-200: the compatibility track of a playlist audio row. *)
Definition playlist_compat_track (st : locals) (l : string) : result locals :=
  if Py.contains marker_test (Py.lower l) then
    let audio_parts := re_split_marker l in
    let* part1 := subscript audio_parts 1 in
    let compat_track :=
      compat_prefix
      +:+ Py.rstrip_paren
            (Py.strip (Py.join "/" (Py.drop_last (Py.split_char "/" part1)))) in
    Ok (append_audio (format_track_name compat_track) st)
  else Ok st.

(** Lines 146-200. *)
Definition playlist_report_line (st : locals) (l l2 : string) : result locals :=
  let st := playlist_heading st l2 in
  if Py.startswith l2 "-----" then
    match sect2 st with
    | Some PLAYLIST_VIDEO => Ok (with_sect3 (Some PLAYLIST_INNER_VIDEO) st)
    | Some PLAYLIST_AUDIO => Ok (with_sect3 (Some PLAYLIST_INNER_AUDIO) st)
    | _ => Ok st
    end
  else if Py.startswith l "-" then Ok st
  else
    match sect2 st, sect3 st with
    | Some PLAYLIST_VIDEO, Some PLAYLIST_INNER_VIDEO =>
        let track_name := playlist_report_format_video_track_name l in
        Ok (if Py.truthy track_name then append_video track_name st else st)
    | Some PLAYLIST_AUDIO, Some PLAYLIST_INNER_AUDIO =>
        let track_name := playlist_report_format_audio_track_name l in
        let st := if Py.truthy track_name then append_audio track_name st else st in
        playlist_compat_track st l
    | _, _ => Ok st
    end.

(** Lines 205-209. *)
Definition eac3to_line (st : locals) (l : string) : result locals :=
  if Py.startswith l "Done." then Ok (with_sect None st)
  else append_eac3to l st.

(** Lines 90-209: the section update and the dispatch on [sect]. *)
Definition classify (st : locals) (l : string) : result locals :=
  let l2 := Py.lower (Py.strip l) in
  let st := update_section st l2 in
  match sect st with
  | Some QUICK_SUMMARY => quick_summary_line st l l2
  | Some PLAYLIST_REPORT => playlist_report_line st l l2
  | Some MEDIAINFO => Ok (append_mediainfo l st)
  | Some EAC3TO_LOG => eac3to_line st l
  | None => Ok st
  end.

(** Lines 67-209: the body of the loop for the line [l]. *)
Definition body (st : locals) (l : string) : result signal :=
  if _isIgnoreAfterLine l then Ok Break
  else if negb (Py.truthy (Py.strip l)) then
    Ok (Next (with_ignore_next_lines false st))
  else if ignore_next_lines st then Ok (Next st)
  else
    let* st := classify (check_prefixes st l) l in
    Ok (Next st).

(** [for l in lines: ...] *)
Fixpoint loop (st : locals) (lines : list string) : result locals :=
  match lines with
  | [] => Ok st
  | l :: rest =>
      match body st l with
      | Raise e => Raise e
      | Ok Break => Ok st
      | Ok (Next st') => loop st' rest
      end
  end.

(** A line that lines 67-88 let through to the section update without
    setting the soft-skip flag.  Not part of the source: the condition
    under which the statements below follow a line into the dispatch. *)
Definition passes (l : string) : Prop :=
  _isIgnoreAfterLine l = false /\ Py.truthy (Py.strip l) = true
  /\ skip_trigger l = false.

(** A line that passes, takes none of the branches of lines 94-109 and
    does not begin with ["Done."]: a line between the header of a log and
    the line that closes it.  Not part of the source either. *)
Definition interior (l : string) : Prop :=
  passes l /\ is_header (Py.lower (Py.strip l)) = false
  /\ Py.startswith l "Done." = false.

(** A line that is neither cut off nor blank.  Not part of the source:
    what lines 67-75 ask of a line that is not under a soft skip. *)
Definition reaches (l : string) : Prop :=
  _isIgnoreAfterLine l = false /\ Py.truthy (Py.strip l) = true.

(** The shape of [mediainfo] wherever the loop stands: empty, or a line
    that starts with ["general"] followed by lines that start no section,
    none of them cut off or blank.  Not part of the source. *)
Definition mediainfo_block (m : list string) : Prop :=
  match m with
  | [] => True
  | h :: rest =>
      Py.startswith (Py.lower (Py.strip h)) "general" = true
      /\ Forall (fun l => is_header (Py.lower (Py.strip l)) = false) rest
  end
  /\ Forall reaches m.

(** What holds of [mediainfo], [sect] and [did_first_mediainfo] wherever
    the loop stands.  Not part of the source. *)
Definition mediainfo_inv (st : locals) : Prop :=
  mediainfo_block (mediainfo st)
  /\ (did_first_mediainfo st = false -> mediainfo st = [])
  /\ (sect st = Some MEDIAINFO -> mediainfo st <> []).

(** The shape of a log: its header line, then lines that start no section
    and do not begin with ["Done."], none of them cut off or blank.  Not
    part of the source. *)
Definition log_block (log : list string) : Prop :=
  match log with
  | [] => False
  | h :: rest =>
      Py.startswith (Py.lower (Py.strip h)) "eac3to v" = true
      /\ Forall (fun l => is_header (Py.lower (Py.strip l)) = false
                          /\ Py.startswith l "Done." = false) rest
  end
  /\ Forall reaches log.


(** What [parse] returns: [bdinfo, mediainfo, eac3to]. *)
Definition returned (st : locals) : bdinfo_dict * list string * list (list string) :=
  (bdinfo st, mediainfo st, eac3to st).

Definition parse_lines (lines : list string)
  : result (bdinfo_dict * list string * list (list string)) :=
  let* st := loop initial lines in
  Ok (returned st).

Definition parse (text : string)
  : result (bdinfo_dict * list string * list (list string)) :=
  parse_lines (Py.splitlines text).

End Parse.

End PasteParser.

(** ** [api.py] *)

Module Api.

(** Lines 90-94 of [parse_text]: the text handed to the Markdown
    converter, the reply with its code fences and its quote marks taken
    out. *)
Definition reply_to_convert (reply : string) : string :=
  Py.replace "> **" "**" (Py.replace "```" "===" reply).

End Api.

(** ** Concrete inputs used below *)

Definition nl : string := String "010" EmptyString.

(** [sep.join(lines)] with a line feed: a pasted text from its lines. *)
Definition text_of (lines : list string) : string := Py.join nl lines.

(** The configuration of an environment that sets the three variables to
    the empty string. *)
Definition blank_environ : PasteParser.environ :=
  PasteParser.mk_environ (Some "") (Some "") (Some "").
Definition blank_config : PasteParser.config := PasteParser.mk_config "" "" [""].

(** A cutoff on every line that has ["END"], and no skip prefix. *)
Definition cutoff_config : PasteParser.config :=
  PasteParser.mk_config "END" "contains" [""].

(** No cutoff, and the skip prefix ["screens"]. *)
Definition skip_config : PasteParser.config :=
  PasteParser.mk_config "" "" ["screens"].

(** The environment whose prefix variable reads [",foo"]: the list it
    gives starts with the empty string. *)
Definition comma_environ : PasteParser.environ :=
  PasteParser.mk_environ (Some "") (Some "") (Some ",foo").
Definition comma_config : PasteParser.config := PasteParser.mk_config "" "" [""; "foo"].

(** The parser with formatters that return their argument. *)
Definition parse_id : PasteParser.config -> string ->
    result (PasteParser.bdinfo_dict * list string * list (list string)) :=
  PasteParser.parse id id id id.
Definition parse_lines_id : PasteParser.config -> list string ->
    result (PasteParser.bdinfo_dict * list string * list (list string)) :=
  PasteParser.parse_lines id id id id.


(** The locals inside a playlist report, in the audio table after its
    separator row, and a row of that table with a compatibility track. *)
Definition in_audio_table : PasteParser.locals :=
  PasteParser.with_sect3 (Some PasteParser.PLAYLIST_INNER_AUDIO)
    (PasteParser.with_sect2 (Some PasteParser.PLAYLIST_AUDIO)
       (PasteParser.with_sect (Some PasteParser.PLAYLIST_REPORT) PasteParser.initial)).
Definition compat_row : string :=
  "DTS-HD Master Audio  English  3925 kbps  5.1 / 48 kHz / 3925 kbps / 24-bit (AC3 Embedded: 5.1 / 48 kHz / 640 kbps / DN -4dB)".

(** An environment in which none of the three variables is set. *)
Definition unset_environ : PasteParser.environ :=
  PasteParser.mk_environ None None None.

(** ** The operations on concrete inputs *)

Example lower_ex : Py.lower "Quick SUMMARY: (AC3 Embedded)" = "quick summary: (ac3 embedded)".
Proof. reflexivity. Qed.
Example strip_ex : Py.strip "  a b )  " = "a b )".
Proof. reflexivity. Qed.
Example rstrip_paren_ex : Py.rstrip_paren "a)b))" = "a)b".
Proof. reflexivity. Qed.
Example split_ex : Py.split_char "/" "a/b//c" = ["a"; "b"; ""; "c"].
Proof. reflexivity. Qed.
Example split1_ex : Py.split_char_1 ":" "a:b:c" = ["a"; "b:c"].
Proof. reflexivity. Qed.
Example split1_none_ex : Py.split_char_1 ":" "abc" = ["abc"].
Proof. reflexivity. Qed.
Example join_ex : Py.join "/" (Py.drop_last (Py.split_char "/" "a/b//c")) = "a/b/".
Proof. reflexivity. Qed.
Example splitlines_ex :
  Py.splitlines (String "a" (String "010" (String "013" (String "010" (String "b" (String "010" EmptyString))))))
  = ["a"; ""; "b"].
Proof. reflexivity. Qed.
Example ext_eac3 :
  fst (CodecsParser.get_codec_ext CodecsParser.__init__ "E-AC3") = Ok (CodecsParser.PyStr "eac3").
Proof. vm_compute. reflexivity. Qed.
Example ext_lower :
  fst (CodecsParser.get_codec_ext CodecsParser.__init__ "ac3") = Ok CodecsParser.PyFalse.
Proof. vm_compute. reflexivity. Qed.
Example re_split_ex :
  PasteParser.re_split_marker "DTS 5.1 (AC3 Embedded: 2.0 / 48 kHz) x (ac3 embedded:y"
  = ["DTS 5.1 "; " 2.0 / 48 kHz) x "; "y"].
Proof. reflexivity. Qed.
Example re_split_none_ex : PasteParser.re_split_marker "DTS ac3 embedded" = ["DTS ac3 embedded"].
Proof. reflexivity. Qed.

(** ** Codec tables *)

Section CodecLookups.
Import CodecsParser.

Let self := __init__.

Lemma guarded_lookup_Some (d : gmap string string) (codec ext : string) :
  d !! codec = Some ext -> guarded_lookup d codec = Ok (PyStr ext).
Proof.
  intros H. unfold guarded_lookup, dict_has, dict_subscript.
  rewrite bool_decide_eq_true_2 by (rewrite H; eauto). simpl. by rewrite H.
Qed.

Lemma guarded_lookup_None (d : gmap string string) (codec : string) :
  d !! codec = None -> guarded_lookup d codec = Ok PyFalse.
Proof.
  intros H. unfold guarded_lookup, dict_has.
  rewrite bool_decide_eq_false_2; [done|]. rewrite H. by intros [? ?].
Qed.

(** With the guard before it the subscript is never reached on a key that
    is absent. *)
Lemma guarded_lookup_never_raises (d : gmap string string) (codec : string) (e : exn) :
  guarded_lookup d codec <> Raise e.
Proof.
  destruct (d !! codec) as [v|] eqn:H.
  - by rewrite (guarded_lookup_Some _ _ _ H).
  - by rewrite (guarded_lookup_None _ _ H).
Qed.

Lemma dict_subscript_None (d : gmap string string) (codec : string) :
  d !! codec = None -> dict_subscript d codec = Raise KeyError.
Proof. intros H. unfold dict_subscript. by rewrite H. Qed.

Lemma lookup_dict_merge (a b : gmap string string) (k : string) :
  dict_merge a b !! k = match b !! k with Some v => Some v | None => a !! k end.
Proof.
  unfold dict_merge. rewrite lookup_union. destruct (b !! k), (a !! k); reflexivity.
Qed.

(** The merged table reads the chapter table first, then the subtitle,
    audio and video tables. *)
Lemma codec_ext_lookup (codec : string) :
  codec_ext self !! codec =
    match chapter_codecs self !! codec with
    | Some v => Some v
    | None =>
        match sub_codecs self !! codec with
        | Some v => Some v
        | None =>
            match audio_codecs self !! codec with
            | Some v => Some v
            | None => video_codecs self !! codec
            end
        end
    end.
Proof.
  unfold self, __init__; cbn [codec_ext chapter_codecs sub_codecs audio_codecs video_codecs].
  by rewrite !lookup_dict_merge.
Qed.

End CodecLookups.

Section CodecTheorem.
Import CodecsParser.

Ltac split_lookup H :=
  repeat (apply lookup_insert_Some in H as [[<- <-]|[_ H]]);
  try (rewrite lookup_empty in H; discriminate H).

(** The four category tables share no name, so the merged table holds
    for each name of a category table the extension recorded there. *)
Lemma codec_ext_of_table (codec ext : string) :
  video_codecs __init__ !! codec = Some ext
  \/ audio_codecs __init__ !! codec = Some ext
  \/ sub_codecs __init__ !! codec = Some ext
  \/ chapter_codecs __init__ !! codec = Some ext ->
  codec_ext __init__ !! codec = Some ext.
Proof.
  intros H. rewrite codec_ext_lookup.
  destruct H as [H|[H|[H|H]]];
    unfold __init__ in H;
    cbn [video_codecs audio_codecs sub_codecs chapter_codecs list_to_map foldr uncurry] in H;
    split_lookup H; vm_compute; reflexivity.
Qed.

Lemma codec_ext_outside_tables (codec : string) :
  video_codecs __init__ !! codec = None ->
  audio_codecs __init__ !! codec = None ->
  sub_codecs __init__ !! codec = None ->
  chapter_codecs __init__ !! codec = None ->
  codec_ext __init__ !! codec = None.
Proof.
  intros Hv Ha Hs Hc. rewrite codec_ext_lookup. by rewrite Hc, Hs, Ha, Hv.
Qed.

End CodecTheorem.

(** C9.  For every codec name: when the name is a key of the video, audio,
    subtitle or chapter table, [get_codec_ext] returns the extension that
    table records for it; when it is a key of none of them, it returns
    [False], where the subscript of line 131 on its own raises
    [KeyError]; [get_audio_codec_title_name] returns the short name
    recorded in the title-name table, and [False] for a name that is not a
    key of it, where the subscript of line 148 on its own raises
    [KeyError].  Neither method raises, whatever the name.  Keys are
    compared as strings, so letter case matters, and every call leaves the
    object, with its tables, as it was. *)
Theorem codec_lookups_follow_tables (codec : string) :
  let self := CodecsParser.__init__ in
  (forall ext,
      CodecsParser.video_codecs self !! codec = Some ext
      \/ CodecsParser.audio_codecs self !! codec = Some ext
      \/ CodecsParser.sub_codecs self !! codec = Some ext
      \/ CodecsParser.chapter_codecs self !! codec = Some ext ->
      CodecsParser.get_codec_ext self codec = (Ok (CodecsParser.PyStr ext), self))
  /\ (CodecsParser.video_codecs self !! codec = None ->
      CodecsParser.audio_codecs self !! codec = None ->
      CodecsParser.sub_codecs self !! codec = None ->
      CodecsParser.chapter_codecs self !! codec = None ->
      CodecsParser.get_codec_ext self codec = (Ok CodecsParser.PyFalse, self)
      /\ CodecsParser.dict_subscript (CodecsParser.codec_ext self) codec = Raise KeyError)
  /\ (forall name,
      CodecsParser.audio_codec_title_names self !! codec = Some name ->
      CodecsParser.get_audio_codec_title_name self codec
      = (Ok (CodecsParser.PyStr name), self))
  /\ (CodecsParser.audio_codec_title_names self !! codec = None ->
      CodecsParser.get_audio_codec_title_name self codec = (Ok CodecsParser.PyFalse, self)
      /\ CodecsParser.dict_subscript (CodecsParser.audio_codec_title_names self) codec
         = Raise KeyError)
  /\ (forall e, fst (CodecsParser.get_codec_ext self codec) <> Raise e)
  /\ (forall e, fst (CodecsParser.get_audio_codec_title_name self codec) <> Raise e).
Proof.
  intros self. unfold CodecsParser.get_codec_ext, CodecsParser.get_audio_codec_title_name.
  split; [|split; [|split; [|split; [|split]]]].
  - intros ext H. f_equal. apply guarded_lookup_Some. by apply codec_ext_of_table.
  - intros Hv Ha Hs Hc.
    pose proof (codec_ext_outside_tables codec Hv Ha Hs Hc) as Hn. split.
    + f_equal. by apply guarded_lookup_None.
    + by apply dict_subscript_None.
  - intros name H. f_equal. by apply guarded_lookup_Some.
  - intros H. split.
    + f_equal. by apply guarded_lookup_None.
    + by apply dict_subscript_None.
  - intros e. apply guarded_lookup_never_raises.
  - intros e. apply guarded_lookup_never_raises.
Qed.

(** The table entry ['E-AC3' : 'eac3'] is returned as recorded; the same
    letters in lower case are no key: the lookup returns [False] where
    the subscript raises; ["FLAC Audio"] has a title name and
    ["Flac Audio"] has none. *)
Lemma codec_lookups_follow_tables_witness :
  let self := CodecsParser.__init__ in
  CodecsParser.get_codec_ext self "E-AC3" = (Ok (CodecsParser.PyStr "eac3"), self)
  /\ (CodecsParser.get_codec_ext self "e-ac3" = (Ok CodecsParser.PyFalse, self)
      /\ CodecsParser.dict_subscript (CodecsParser.codec_ext self) "e-ac3" = Raise KeyError)
  /\ CodecsParser.get_audio_codec_title_name self "FLAC Audio"
     = (Ok (CodecsParser.PyStr "FLAC"), self)
  /\ (CodecsParser.get_audio_codec_title_name self "Flac Audio"
      = (Ok CodecsParser.PyFalse, self)
      /\ CodecsParser.dict_subscript (CodecsParser.audio_codec_title_names self) "Flac Audio"
         = Raise KeyError).
Proof.
  intros self. split; [|split; [|split]].
  - apply (proj1 (codec_lookups_follow_tables "E-AC3")).
    right; left. vm_compute. reflexivity.
  - apply (proj1 (proj2 (codec_lookups_follow_tables "e-ac3"))); vm_compute; reflexivity.
  - apply (proj1 (proj2 (proj2 (codec_lookups_follow_tables "FLAC Audio")))).
    vm_compute. reflexivity.
  - apply (proj1 (proj2 (proj2 (proj2 (codec_lookups_follow_tables "Flac Audio"))))).
    vm_compute. reflexivity.
Defined.

(** ** Facts about the string methods *)

Lemma startswith_cons (s p : string) (a : ascii) :
  Py.startswith s (String a p) = true ->
  exists t, s = String a t /\ Py.startswith t p = true.
Proof.
  destruct s as [|b t]; cbn; [done|].
  destruct (Ascii.eqb_spec a b); [subst; eauto | done].
Qed.

Lemma rstrip_where_cons (drop : ascii -> bool) (c : ascii) (t : string) :
  drop c = false -> exists r, Py.rstrip_where drop (String c t) = String c r.
Proof.
  intros H. cbn. rewrite H. destruct (Py.rstrip_where drop t); eauto.
Qed.

(** A line that begins with a character that is no white space keeps it
    as the first character of its stripped, lower-cased form. *)
Lemma lower_strip_cons (c : ascii) (t : string) :
  Py.isspace c = false ->
  exists r, Py.lower (Py.strip (String c t)) = String (Py.lower_char c) r.
Proof.
  intros H. unfold Py.strip, Py.rstrip. cbn [Py.lstrip]. rewrite H.
  destruct (rstrip_where_cons Py.isspace c t H) as [r ->]. cbn. eauto.
Qed.

Lemma string_app_cons (c : ascii) (s t : string) :
  String c s +:+ t = String c (s +:+ t).
Proof. reflexivity. Qed.

Lemma string_app_nil_l (t : string) : "" +:+ t = t.
Proof. reflexivity. Qed.

Lemma string_app_nil_r (s : string) : s +:+ "" = s.
Proof. induction s as [|c s IH]; [done|]. by rewrite string_app_cons, IH. Qed.

Lemma string_app_assoc (a b c : string) : (a +:+ b) +:+ c = a +:+ (b +:+ c).
Proof. induction a as [|x a IH]; [done|]. by rewrite !string_app_cons, IH. Qed.

Lemma startswith_app (s p q : string) :
  Py.startswith s (p +:+ q) = true -> Py.startswith s p = true.
Proof.
  revert s. induction p as [|a p IH]; intros s H; [done|].
  rewrite string_app_cons in H.
  destruct s as [|b s]; cbn in *; [done|].
  destruct (Ascii.eqb a b); [by apply IH|done].
Qed.

(** A text that has ["(ac3 embedded:"] has ["ac3 embedded"]. *)
Lemma contains_marker_test (s : string) :
  Py.contains PasteParser.marker_pattern s = true ->
  Py.contains PasteParser.marker_test s = true.
Proof.
  induction s as [|c t IH]; [done|].
  cbn [Py.contains]. intros H. apply orb_true_iff in H as [H|H].
  - apply orb_true_iff. right.
    change PasteParser.marker_pattern with (String "(" ("ac3 embedded" +:+ ":")) in H.
    apply startswith_cons in H as (t' & Et & H). simplify_eq.
    apply startswith_app in H. unfold PasteParser.marker_test.
    destruct t' as [|x t']; [by cbn in H|]. cbn [Py.contains]. by rewrite H.
  - apply orb_true_iff. right. by apply IH.
Qed.

(** [re.split] returns at least one piece, and at least two when the
    pattern occurs. *)
Lemma re_split_from_cons (pat cur : string) (skip : nat) (s : string) :
  exists p more, PasteParser.re_split_from pat cur skip s = p :: more.
Proof.
  revert cur skip. induction s as [|c t IH]; intros cur skip; cbn; [eauto|].
  destruct skip; [|apply IH]. destruct (Py.startswith _ pat); [eauto|apply IH].
Qed.

Lemma re_split_from_two (a : ascii) (pat cur s : string) :
  Py.contains (String a pat) (Py.lower s) = true ->
  exists p0 p1 more,
    PasteParser.re_split_from (String a pat) cur 0 s = p0 :: p1 :: more.
Proof.
  revert cur. induction s as [|c t IH]; intros cur H; [done|].
  cbn [Py.lower Py.contains] in H. cbn [PasteParser.re_split_from].
  change (String (Py.lower_char c) (Py.lower t)) with (Py.lower (String c t)) in *.
  destruct (Py.startswith (Py.lower (String c t)) (String a pat)) eqn:Hs.
  - destruct (re_split_from_cons (String a pat) "" (String.length (String a pat) - 1) t)
      as (p & more & ->). eauto.
  - cbn [orb] in H. by apply IH.
Qed.

(** What the pieces are: the first is the text before the first match,
    and what follows is the split of the text after that match. *)
Lemma startswith_lower_split (pat s : string) :
  Py.startswith (Py.lower s) pat = true ->
  exists m rest, s = m +:+ rest /\ Py.lower m = pat.
Proof.
  revert s. induction pat as [|a pat IH]; intros s H.
  - by exists "", s.
  - destruct s as [|c t]; [done|]. cbn [Py.lower] in H.
    apply startswith_cons in H as (t' & Et & H). simplify_eq.
    apply IH in H as (m & rest & -> & <-). by exists (String c m), rest.
Qed.

Lemma lower_length (s : string) : String.length (Py.lower s) = String.length s.
Proof. induction s; cbn; congruence. Qed.

Lemma re_split_from_skip (pat cur m rest : string) :
  PasteParser.re_split_from pat cur (String.length m) (m +:+ rest)
  = PasteParser.re_split_from pat cur 0 rest.
Proof. induction m as [|c m IH]; [done|]. rewrite string_app_cons. cbn. apply IH. Qed.

Lemma string_app_split_cons (c : ascii) (t a b : string) :
  String c t = a +:+ b ->
  (a = "" /\ b = String c t) \/ (exists a', a = String c a' /\ t = a' +:+ b).
Proof.
  destruct a as [|x a']; [by left|]. rewrite string_app_cons. intros E.
  injection E as <- ->. right. by exists a'.
Qed.

Lemma re_split_from_parts (a : ascii) (pat cur s p0 p1 : string) (more : list string) :
  PasteParser.re_split_from (String a pat) cur 0 s = p0 :: p1 :: more ->
  exists pre m rest,
    s = pre +:+ m +:+ rest /\ p0 = cur +:+ pre /\ Py.lower m = String a pat
    /\ (forall x y, pre = x +:+ y -> y <> "" ->
        Py.startswith (Py.lower (y +:+ m +:+ rest)) (String a pat) = false)
    /\ PasteParser.re_split_from (String a pat) "" 0 rest = p1 :: more.
Proof.
  revert cur. induction s as [|c t IH]; intros cur H; [done|].
  cbn [PasteParser.re_split_from] in H.
  destruct (Py.startswith (Py.lower (String c t)) (String a pat)) eqn:Hs.
  - apply startswith_lower_split in Hs as (m & rest & E & Hm).
    destruct m as [|c' m]; [done|]. rewrite string_app_cons in E.
    injection E as <- ->. injection H as <- H.
    apply (f_equal String.length) in Hm as El. cbn in El. rewrite lower_length in El.
    match type of H with
    | context [PasteParser.re_split_from _ _ ?k _] =>
        replace k with (String.length m) in H by lia
    end.
    rewrite re_split_from_skip in H.
    exists "", (String c m), rest. split; [done|]. split; [by rewrite string_app_nil_r|].
    split; [done|]. split; [|done].
    intros x y E Hy. destruct x, y; done.
  - apply IH in H as (pre & m & rest & -> & -> & Hm & Hfirst & Hr).
    exists (String c pre), m, rest. split; [done|].
    split; [by rewrite string_app_assoc|]. split; [done|]. split; [|done].
    intros x y E Hy. apply string_app_split_cons in E as [[-> ->]|(x' & -> & E)].
    + by rewrite string_app_cons.
    + by apply (Hfirst x' y).
Qed.

Lemma re_split_from_head (a : ascii) (pat cur s p : string) (more : list string) :
  PasteParser.re_split_from (String a pat) cur 0 s = p :: more ->
  exists pre rest, s = pre +:+ rest /\ p = cur +:+ pre /\ (more = [] -> rest = "").
Proof.
  revert cur. induction s as [|c t IH]; intros cur H.
  - cbn in H. simplify_eq. exists "", "". split; [done|]. split; [|done].
    by rewrite string_app_nil_r.
  - cbn [PasteParser.re_split_from] in H.
    destruct (Py.startswith (Py.lower (String c t)) (String a pat)) eqn:Hs.
    + simplify_eq. exists "", (String c t). split; [done|]. split.
      * by rewrite string_app_nil_r.
      * intros E. exfalso. revert E.
        match goal with
        | |- ?x = [] -> _ =>
            match x with
            | PasteParser.re_split_from ?p ?c ?k ?u =>
                destruct (re_split_from_cons p c k u) as (y & ys & ->)
            end
        end.
        discriminate.
    + apply IH in H as (pre & rest & -> & -> & Hm).
      exists (String c pre), rest. split; [done|]. split; [|done].
      by rewrite string_app_assoc.
Qed.

(** *** The colon of a key line *)

Lemma contains_char_cons (x c : ascii) (t : string) :
  Py.contains (String x "") (String c t) = Ascii.eqb x c || Py.contains (String x "") t.
Proof. cbn [Py.contains Py.startswith]. by destruct (Ascii.eqb x c). Qed.

Lemma split_char_1_two (s : string) :
  Py.contains ":" s = true ->
  exists key after, Py.split_char_1 ":" s = [key; after] /\ s = key +:+ String ":" after.
Proof.
  induction s as [|c t IH]; [done|].
  rewrite contains_char_cons. cbn [Py.split_char_1]. rewrite (Ascii.eqb_sym c).
  destruct (Ascii.eqb_spec ":" c) as [<-|Hc].
  - intros _. by exists "", t.
  - cbn [orb]. intros H. apply IH in H as (key & after & -> & ->).
    by exists (String c key), after.
Qed.

Lemma lower_char_colon (c : ascii) : Py.lower_char c = ":"%char -> c = ":"%char.
Proof. destruct c as [[] [] [] [] [] [] [] []]; vm_compute; congruence. Qed.

Lemma contains_colon_lower (s : string) :
  Py.contains ":" (Py.lower s) = true -> Py.contains ":" s = true.
Proof.
  induction s as [|c t IH]; [done|]. cbn [Py.lower]. rewrite !contains_char_cons.
  intros H. apply orb_true_iff in H as [H|H]; apply orb_true_iff.
  - left. apply Ascii.eqb_eq in H. symmetry in H. apply lower_char_colon in H.
    subst. reflexivity.
  - right. by apply IH.
Qed.

Lemma contains_colon_lstrip (s : string) :
  Py.contains ":" (Py.lstrip s) = true -> Py.contains ":" s = true.
Proof.
  induction s as [|c t IH]; [done|]. cbn [Py.lstrip].
  destruct (Py.isspace c); [|done]. intros H. rewrite contains_char_cons.
  apply orb_true_iff. right. by apply IH.
Qed.

Lemma contains_colon_rstrip (drop : ascii -> bool) (s : string) :
  Py.contains ":" (Py.rstrip_where drop s) = true -> Py.contains ":" s = true.
Proof.
  induction s as [|c t IH]; [done|]. cbn [Py.rstrip_where].
  rewrite contains_char_cons.
  destruct (Py.rstrip_where drop t) as [|x r].
  - destruct (drop c); [done|]. rewrite contains_char_cons.
    destruct (Ascii.eqb ":" c); done.
  - rewrite contains_char_cons. intros H.
    apply orb_true_iff in H as [H|H]; apply orb_true_iff; [by left|right; by apply IH].
Qed.

Lemma contains_colon_lower_strip (l : string) :
  Py.contains ":" (Py.lower (Py.strip l)) = true -> Py.contains ":" l = true.
Proof.
  intros H. apply contains_colon_lower in H. unfold Py.strip, Py.rstrip in H.
  by apply contains_colon_rstrip, contains_colon_lstrip in H.
Qed.

Lemma contains_colon_into_lstrip (s : string) :
  Py.contains ":" s = true -> Py.contains ":" (Py.lstrip s) = true.
Proof.
  induction s as [|c t IH]; [done|]. cbn [Py.lstrip].
  destruct (Py.isspace c) eqn:Hc; [|done]. rewrite contains_char_cons.
  destruct (Ascii.eqb_spec ":" c) as [<-|_]; [done|]. apply IH.
Qed.

Lemma contains_colon_into_rstrip (s : string) :
  Py.contains ":" s = true -> Py.contains ":" (Py.rstrip s) = true.
Proof.
  unfold Py.rstrip. induction s as [|c t IH]; [done|].
  rewrite contains_char_cons. cbn [Py.rstrip_where].
  destruct (Ascii.eqb_spec ":" c) as [<-|Hc]; cbn [orb].
  - intros _. by destruct (Py.rstrip_where Py.isspace t).
  - intros H. apply IH in H. destruct (Py.rstrip_where Py.isspace t) as [|x r]; [done|].
    rewrite contains_char_cons. apply orb_true_iff. by right.
Qed.

Lemma contains_colon_into_strip (s : string) :
  Py.contains ":" s = true -> Py.contains ":" (Py.strip s) = true.
Proof. intros H. by apply contains_colon_into_rstrip, contains_colon_into_lstrip. Qed.

Lemma split_char_cons (sep : ascii) (s : string) :
  exists w ws, Py.split_char sep s = w :: ws.
Proof.
  induction s as [|c t (w & ws & IH)]; cbn; [eauto|].
  destruct (Ascii.eqb c sep); [eauto|]. rewrite IH. eauto.
Qed.

(** When the colon comes first, the piece before the first parenthesis
    has it. *)
Lemma colon_before_paren_split (s w : string) (ws : list string) :
  Py.colon_before_paren s = true -> Py.split_char "(" s = w :: ws ->
  Py.contains ":" w = true.
Proof.
  revert w ws. induction s as [|c t IH]; intros w ws; [done|].
  cbn [Py.colon_before_paren Py.split_char].
  destruct (Ascii.eqb_spec c ":") as [->|Hc].
  - intros _. cbn. destruct (Py.split_char "(" t); intros E; by simplify_eq.
  - destruct (Ascii.eqb c "("); [done|]. intros H.
    destruct (Py.split_char "(" t) as [|w' ws'] eqn:Et; intros E; simplify_eq.
    + destruct (split_char_cons "(" t) as (? & ? & ?). congruence.
    + rewrite contains_char_cons. apply orb_true_iff. right. by eapply IH.
Qed.

Lemma colon_before_paren_contains (s : string) :
  Py.colon_before_paren s = true -> Py.contains ":" s = true.
Proof.
  induction s as [|c t IH]; [done|]. cbn [Py.colon_before_paren].
  rewrite contains_char_cons, (Ascii.eqb_sym ":" c).
  destruct (Ascii.eqb c ":"); [done|]. destruct (Ascii.eqb c "("); [done|]. apply IH.
Qed.

Lemma lower_char_paren (c : ascii) :
  Ascii.eqb (Py.lower_char c) "(" = Ascii.eqb c "(".
Proof. destruct c as [[] [] [] [] [] [] [] []]; reflexivity. Qed.

Lemma lower_char_is_colon (c : ascii) :
  Ascii.eqb (Py.lower_char c) ":" = Ascii.eqb c ":".
Proof. destruct c as [[] [] [] [] [] [] [] []]; reflexivity. Qed.

Lemma isspace_not_colon_paren (c : ascii) :
  Py.isspace c = true -> Ascii.eqb c ":" = false /\ Ascii.eqb c "(" = false.
Proof. destruct c as [[] [] [] [] [] [] [] []]; cbv; by intros. Qed.

Lemma colon_before_paren_lower (s : string) :
  Py.colon_before_paren (Py.lower s) = Py.colon_before_paren s.
Proof.
  induction s as [|c t IH]; [done|]. cbn [Py.lower Py.colon_before_paren].
  by rewrite lower_char_is_colon, lower_char_paren, IH.
Qed.

Lemma colon_before_paren_lstrip (s : string) :
  Py.colon_before_paren (Py.lstrip s) = true -> Py.colon_before_paren s = true.
Proof.
  induction s as [|c t IH]; [done|]. cbn [Py.lstrip].
  destruct (Py.isspace c) eqn:Hc; [|done]. intros H. cbn [Py.colon_before_paren].
  destruct (isspace_not_colon_paren c Hc) as [-> ->]. by apply IH.
Qed.

Lemma colon_before_paren_rstrip (drop : ascii -> bool) (s : string) :
  Py.colon_before_paren (Py.rstrip_where drop s) = true ->
  Py.colon_before_paren s = true.
Proof.
  induction s as [|c t IH]; [done|]. cbn [Py.rstrip_where].
  destruct (Py.rstrip_where drop t) as [|x r].
  - destruct (drop c); [done|]. cbn [Py.colon_before_paren].
    destruct (Ascii.eqb c ":"); [done|]. by destruct (Ascii.eqb c "(").
  - cbn [Py.colon_before_paren] in *.
    destruct (Ascii.eqb c ":"); [done|]. destruct (Ascii.eqb c "("); [done|]. apply IH.
Qed.

Lemma colon_before_paren_lower_strip (l : string) :
  Py.colon_before_paren (Py.lower (Py.strip l)) = true ->
  Py.colon_before_paren l = true.
Proof.
  rewrite colon_before_paren_lower. unfold Py.strip, Py.rstrip. intros H.
  by apply colon_before_paren_rstrip, colon_before_paren_lstrip in H.
Qed.

(** ** The paste parser *)

Import PasteParser.

(** The first character of [l2] decides which prefix tests can succeed. *)
Ltac head_char H :=
  let t := fresh "t" in
  let E := fresh "E" in
  apply startswith_cons in H as (t & E & H); rewrite E in *.

Lemma update_section_general (st : locals) (l2 : string) :
  Py.startswith l2 "general" = true ->
  update_section st l2 =
    if did_first_mediainfo st then with_sect None st
    else with_did_first_mediainfo true (with_sect (Some MEDIAINFO) st).
Proof.
  intros H. unfold update_section. rewrite H. by head_char H.
Qed.

Lemma update_section_eac3to (st : locals) (l2 : string) :
  Py.startswith l2 "eac3to v" = true ->
  update_section st l2 =
    with_eac3to_index (eac3to_index st + 1)
      (with_eac3to (eac3to st ++ [[]]) (with_sect (Some EAC3TO_LOG) st)).
Proof.
  intros H. unfold update_section. rewrite H. by head_char H.
Qed.

Lemma update_section_not_header (st : locals) (l2 : string) :
  is_header l2 = false -> update_section st l2 = st.
Proof.
  unfold is_header, update_section. intros H.
  repeat (apply orb_false_elim in H as [H ?]). by repeat case_match.
Qed.

Section ParseFacts.

Variables (format_track_name format_video_track_name : string -> string).
Variables (playlist_report_format_video_track_name
           playlist_report_format_audio_track_name : string -> string).
Variable cfg : config.

Local Abbreviation quick_summary_line :=
  (PasteParser.quick_summary_line format_track_name format_video_track_name).
Local Abbreviation playlist_report_line :=
  (PasteParser.playlist_report_line format_track_name
     playlist_report_format_video_track_name playlist_report_format_audio_track_name).
Local Abbreviation classify :=
  (PasteParser.classify format_track_name format_video_track_name
     playlist_report_format_video_track_name playlist_report_format_audio_track_name).
Local Abbreviation body :=
  (PasteParser.body format_track_name format_video_track_name
     playlist_report_format_video_track_name playlist_report_format_audio_track_name cfg).
Local Abbreviation loop :=
  (PasteParser.loop format_track_name format_video_track_name
     playlist_report_format_video_track_name playlist_report_format_audio_track_name cfg).
Local Abbreviation parse_lines :=
  (PasteParser.parse_lines format_track_name format_video_track_name
     playlist_report_format_video_track_name playlist_report_format_audio_track_name cfg).

(** *** The hard cutoff *)

Lemma _isIgnoreAfterLine_spec (l : string) :
  _isIgnoreAfterLine cfg l = true <->
  (IGNORE_AFTER_LINE_METHOD cfg = "equals" /\ IGNORE_AFTER_LINE cfg = l)
  \/ (IGNORE_AFTER_LINE_METHOD cfg = "contains"
      /\ Py.contains (IGNORE_AFTER_LINE cfg) l = true).
Proof.
  unfold _isIgnoreAfterLine.
  destruct (String.eqb_spec (IGNORE_AFTER_LINE_METHOD cfg) "equals") as [He|He].
  - destruct (String.eqb_spec (IGNORE_AFTER_LINE cfg) l) as [Hl|Hl].
    + split; [intros _; left; done | done].
    + split; [done|]. intros [[_ ?]|[Hc _]]; [done|]. rewrite He in Hc. discriminate.
  - destruct (String.eqb_spec (IGNORE_AFTER_LINE_METHOD cfg) "contains") as [Hc|Hc].
    + destruct (Py.contains (IGNORE_AFTER_LINE cfg) l) eqn:Hin.
      * split; [intros _; right; done | done].
      * split; [done|]. intros [[? _]|[_ ?]]; done.
    + split; [done|]. intros [[? _]|[? _]]; done.
Qed.

Lemma body_break (st : locals) (l : string) :
  _isIgnoreAfterLine cfg l = true -> body st l = Ok Break.
Proof. intros H. unfold PasteParser.body. by rewrite H. Qed.

Lemma loop_stops_at_break (pre post : list string) (l : string) :
  _isIgnoreAfterLine cfg l = true ->
  forall st, loop st (pre ++ l :: post) = loop st pre.
Proof.
  intros Hcut. induction pre as [|x pre IH]; intros st; simpl.
  - by rewrite body_break.
  - destruct (body st x) as [[st'|]|e]; [apply IH | reflexivity | reflexivity].
Qed.

(** *** What each handler may change *)

Ltac unfold_setters :=
  unfold append_video, append_audio, append_subtitle, set_type, append_mediainfo,
    with_bdinfo, with_mediainfo, with_eac3to, with_eac3to_index, with_sect,
    with_sect2, with_sect3, with_ignore_next_lines, with_did_first_mediainfo in *.

Ltac by_cases :=
  repeat case_match; simplify_eq; unfold_setters; cbn in *; simplify_eq.

Ltac unfold_handlers :=
  unfold PasteParser.quick_summary_line, PasteParser.playlist_report_line,
    playlist_heading, PasteParser.playlist_compat_track, eac3to_line,
    append_eac3to, subscript, bind in *.

(** A Quick Summary line touches the three track lists only. *)
Lemma quick_summary_line_frame (st st1 : locals) (l l2 : string) :
  quick_summary_line st l l2 = Ok st1 ->
  exists b, st1 = with_bdinfo b st /\ type_ b = type_ (bdinfo st).
Proof.
  destruct st as [[v a sb ty] m e i s s2 s3 ign did]. unfold_handlers.
  intros H. by_cases; eexists (mk_bdinfo _ _ _ _); split; reflexivity.
Qed.

(** A Playlist Report line touches the video and audio lists, [sect2] and
    [sect3]. *)
Lemma playlist_report_line_frame (st st1 : locals) (l l2 : string) :
  playlist_report_line st l l2 = Ok st1 ->
  exists b s2 s3,
    st1 = with_bdinfo b (with_sect3 s3 (with_sect2 s2 st))
    /\ subtitle b = subtitle (bdinfo st) /\ type_ b = type_ (bdinfo st).
Proof.
  destruct st as [[v a sb ty] m e i s s2 s3 ign did]. unfold_handlers.
  intros H. by_cases; eexists (mk_bdinfo _ _ _ _), _, _; repeat split; reflexivity.
Qed.

(** A line of a log closes the log or is appended to the list of logs. *)
Lemma eac3to_line_frame (st st1 : locals) (l : string) :
  eac3to_line st l = Ok st1 ->
  st1 = with_sect None st \/ exists e, st1 = with_eac3to e st.
Proof.
  unfold_handlers. intros H. by_cases; eauto.
Qed.

(** The section update, read through the fields that matter for the
    MediaInfo block. *)
Lemma update_section_mediainfo (st : locals) (l2 : string) :
  let st0 := update_section st l2 in
  ignore_next_lines st0 = ignore_next_lines st
  /\ mediainfo st0 = mediainfo st
  /\ ((sect st0 = Some MEDIAINFO /\ did_first_mediainfo st = false
       /\ did_first_mediainfo st0 = true)
      \/ (sect st0 = sect st /\ did_first_mediainfo st0 = did_first_mediainfo st)
      \/ (sect st0 <> Some MEDIAINFO
          /\ did_first_mediainfo st0 = did_first_mediainfo st)).
Proof.
  destruct st. unfold update_section. by_cases; auto 10.
Qed.

Ltac project :=
  cbn [bdinfo mediainfo eac3to eac3to_index sect sect2 sect3 ignore_next_lines
       did_first_mediainfo video audio subtitle type_
       append_video append_audio append_subtitle set_type append_mediainfo
       with_bdinfo with_mediainfo with_eac3to with_eac3to_index with_sect
       with_sect2 with_sect3 with_ignore_next_lines with_did_first_mediainfo] in *.

Lemma classify_mediainfo (st st1 : locals) (l : string) :
  classify st l = Ok st1 ->
  ignore_next_lines st1 = ignore_next_lines st
  /\ ((sect st1 = Some MEDIAINFO /\ mediainfo st1 = mediainfo st ++ [l]
       /\ ((did_first_mediainfo st = false /\ did_first_mediainfo st1 = true)
           \/ (sect st = Some MEDIAINFO
               /\ did_first_mediainfo st1 = did_first_mediainfo st)))
      \/ (sect st1 <> Some MEDIAINFO /\ mediainfo st1 = mediainfo st
          /\ did_first_mediainfo st1 = did_first_mediainfo st)).
Proof.
  unfold PasteParser.classify. intros H.
  pose proof (update_section_mediainfo st (Py.lower (Py.strip l))) as (Hi & Hm & Hd).
  set (st0 := update_section st _) in *. clearbody st0.
  destruct (sect st0) as [[]|] eqn:Hs.
  - apply quick_summary_line_frame in H as (b & -> & _). project.
    split; [done|]. right. rewrite Hs. intuition congruence.
  - simplify_eq. project. split; [done|]. left. rewrite Hs, Hm.
    intuition congruence.
  - apply playlist_report_line_frame in H as (b & s2 & s3 & -> & _). project.
    split; [done|]. right. rewrite Hs. intuition congruence.
  - apply eac3to_line_frame in H as [->|[e ->]]; project;
      (split; [done|]); right; try rewrite Hs; intuition congruence.
  - simplify_eq. split; [done|]. right. rewrite Hs. intuition congruence.
Qed.

(** *** Lines 67-88 *)

Lemma check_prefixes_spec (st : locals) (l : string) :
  check_prefixes cfg st l =
    with_ignore_next_lines (ignore_next_lines st || skip_trigger cfg l) st.
Proof.
  destruct st as [b m e i s s2 s3 ign did].
  unfold check_prefixes, skip_trigger, with_ignore_next_lines; project.
  destruct (prefixes_enabled cfg); cbn [andb];
    [destruct (starts_with_prefix cfg _)|]; by rewrite ?orb_true_r, ?orb_false_r.
Qed.

Lemma body_blank (st : locals) (l : string) :
  _isIgnoreAfterLine cfg l = false -> Py.truthy (Py.strip l) = false ->
  body st l = Ok (Next (with_ignore_next_lines false st)).
Proof. intros Hc Hb. unfold PasteParser.body. by rewrite Hc, Hb. Qed.

Lemma body_skipped (st : locals) (l : string) :
  _isIgnoreAfterLine cfg l = false -> Py.truthy (Py.strip l) = true ->
  ignore_next_lines st = true ->
  body st l = Ok (Next st).
Proof. intros Hc Hb Hi. unfold PasteParser.body. by rewrite Hc, Hb, Hi. Qed.

Lemma body_classified (st : locals) (l : string) :
  _isIgnoreAfterLine cfg l = false -> Py.truthy (Py.strip l) = true ->
  ignore_next_lines st = false ->
  body st l =
    bind (classify (with_ignore_next_lines (skip_trigger cfg l) st) l)
         (fun st' => Ok (Next st')).
Proof.
  intros Hc Hb Hi. unfold PasteParser.body.
  by rewrite Hc, Hb, Hi, check_prefixes_spec, Hi.
Qed.

(** The three ways through the loop body that do not end the loop. *)
Lemma body_next (st st' : locals) (l : string) :
  body st l = Ok (Next st') ->
  _isIgnoreAfterLine cfg l = false
  /\ ((Py.truthy (Py.strip l) = false /\ st' = with_ignore_next_lines false st)
      \/ (Py.truthy (Py.strip l) = true /\ ignore_next_lines st = true /\ st' = st)
      \/ (Py.truthy (Py.strip l) = true /\ ignore_next_lines st = false
          /\ classify (with_ignore_next_lines (skip_trigger cfg l) st) l = Ok st')).
Proof.
  intros H. destruct (_isIgnoreAfterLine cfg l) eqn:Hc.
  { rewrite body_break in H by done. discriminate. }
  split; [done|].
  destruct (Py.truthy (Py.strip l)) eqn:Hb.
  - destruct (ignore_next_lines st) eqn:Hi.
    + rewrite body_skipped in H by done. simplify_eq. auto.
    + rewrite body_classified in H by done.
      destruct (classify _ l) as [st1|]; simpl in H; simplify_eq. auto 10.
  - rewrite body_blank in H by done. simplify_eq. auto.
Qed.

(** *** The MediaInfo block *)

Ltac loop_step H st1 Hb :=
  cbn [PasteParser.loop] in H;
  match type of H with
  | context [PasteParser.body ?a ?b ?c ?d ?e ?st ?l] =>
      destruct (PasteParser.body a b c d e st l) as [[st1|]|] eqn:Hb;
      [ | | discriminate H ]
  end.





(** *** Truncation *)

(** C5.  When the cutoff test holds of a line, in mode ["equals"] or in
    mode ["contains"], the loop body ends the loop at that line whatever
    the locals are, so also on a blank line and under a soft skip, and
    [parse] returns what it returns on the lines before that line: the
    line and the lines after it add nothing. *)
Theorem hard_cutoff_truncates (pre post : list string) (l : string) :
  (IGNORE_AFTER_LINE_METHOD cfg = "equals" /\ IGNORE_AFTER_LINE cfg = l)
  \/ (IGNORE_AFTER_LINE_METHOD cfg = "contains"
      /\ Py.contains (IGNORE_AFTER_LINE cfg) l = true) ->
  (forall st, body st l = Ok Break)
  /\ parse_lines (pre ++ l :: post) = parse_lines pre.
Proof.
  intros H. apply _isIgnoreAfterLine_spec in H. split.
  - intros st. by apply body_break.
  - unfold PasteParser.parse_lines. by rewrite loop_stops_at_break.
Qed.

(** The flag [ignore_next_lines] is not read after line 88: setting it
    before the section update and the dispatch or after them is the same. *)
Lemma update_section_ignore_flag (b : bool) (st : locals) (l2 : string) :
  update_section (with_ignore_next_lines b st) l2
  = with_ignore_next_lines b (update_section st l2).
Proof. destruct st. unfold update_section. by_cases; reflexivity. Qed.

Lemma classify_ignore_flag (b : bool) (st : locals) (l : string) :
  classify (with_ignore_next_lines b st) l
  = bind (classify st l) (fun st' => Ok (with_ignore_next_lines b st')).
Proof.
  unfold PasteParser.classify. rewrite update_section_ignore_flag.
  generalize (update_section st (Py.lower (Py.strip l))). clear st.
  intros [[v a sb ty] m e i s s2 s3 ign did]. project.
  destruct s as [[]|]; unfold_handlers; project; by_cases; reflexivity.
Qed.

Lemma skip_trigger_spec (l : string) :
  prefixes_enabled cfg = true ->
  (exists x, In x (IGNORE_UNTIL_BLANK_LINE_PREFIXES cfg)
             /\ Py.startswith (Py.lower (Py.strip l)) x = true) ->
  skip_trigger cfg l = true.
Proof.
  intros He Hx. unfold skip_trigger, starts_with_prefix. rewrite He.
  cbn [andb]. by apply existsb_exists.
Qed.

Lemma loop_skips_until_blank (skipped rest : list string) (blank : string) :
  Forall (fun l => _isIgnoreAfterLine cfg l = false /\ Py.truthy (Py.strip l) = true)
         skipped ->
  _isIgnoreAfterLine cfg blank = false -> Py.truthy (Py.strip blank) = false ->
  forall st, ignore_next_lines st = true ->
    loop st (skipped ++ blank :: rest) = loop (with_ignore_next_lines false st) rest.
Proof.
  intros Hall Hc Hb. induction Hall as [|l ls [Hlc Hlb] _ IH]; intros st Hi.
  - cbn [app PasteParser.loop]. by rewrite body_blank.
  - cbn [app PasteParser.loop]. rewrite body_skipped by done. by apply IH.
Qed.

(** C6 (as amended).  Let the list of skip prefixes have a first entry
    that is not the empty string, and take lines on which the hard cutoff
    does not trigger.  A line that is not blank, met while the flag is
    clear, whose stripped lower-cased form starts with an entry of the list
    is classified as [classify] does from the same locals, and the flag
    [ignore_next_lines] is set afterwards.  While the flag is set a line
    that is not blank leaves the locals as they are.  A blank line clears
    the flag and changes nothing else.  So after a run of lines that are
    not blank and a blank line, met with the flag set, the loop goes on
    with the rest from the same locals with the flag clear. *)
Theorem soft_skip_until_blank_line :
  prefixes_enabled cfg = true ->
  (forall st l,
      _isIgnoreAfterLine cfg l = false -> Py.truthy (Py.strip l) = true ->
      ignore_next_lines st = false ->
      (exists x, In x (IGNORE_UNTIL_BLANK_LINE_PREFIXES cfg)
                 /\ Py.startswith (Py.lower (Py.strip l)) x = true) ->
      body st l
      = bind (classify st l) (fun st' => Ok (Next (with_ignore_next_lines true st'))))
  /\ (forall st l,
        _isIgnoreAfterLine cfg l = false -> Py.truthy (Py.strip l) = true ->
        ignore_next_lines st = true ->
        body st l = Ok (Next st))
  /\ (forall st l,
        _isIgnoreAfterLine cfg l = false -> Py.truthy (Py.strip l) = false ->
        body st l = Ok (Next (with_ignore_next_lines false st)))
  /\ (forall st skipped blank rest,
        ignore_next_lines st = true ->
        Forall (fun l => _isIgnoreAfterLine cfg l = false
                         /\ Py.truthy (Py.strip l) = true) skipped ->
        _isIgnoreAfterLine cfg blank = false -> Py.truthy (Py.strip blank) = false ->
        loop st (skipped ++ blank :: rest)
        = loop (with_ignore_next_lines false st) rest).
Proof.
  intros He. split; [|split; [|split]].
  - intros st l Hc Hb Hi Hx. rewrite body_classified by done.
    rewrite skip_trigger_spec by done. rewrite classify_ignore_flag.
    by destruct (classify st l).
  - intros st l. apply body_skipped.
  - intros st l. apply body_blank.
  - intros st skipped blank rest Hi Hall Hc Hb. by apply loop_skips_until_blank.
Qed.

(** *** The playlist report *)

Lemma update_section_tracks (st : locals) (l2 : string) :
  let st0 := update_section st l2 in
  video (bdinfo st0) = video (bdinfo st) /\ audio (bdinfo st0) = audio (bdinfo st)
  /\ subtitle (bdinfo st0) = subtitle (bdinfo st)
  /\ sect2 st0 = sect2 st /\ sect3 st0 = sect3 st.
Proof. destruct st as [[v a sb ty] m e i s s2 s3 ign did]. unfold update_section. by_cases; auto. Qed.




Lemma lower_strip_dash (l : string) :
  Py.startswith l "-" = true -> Py.startswith (Py.lower (Py.strip l)) "-" = true.
Proof.
  intros H. head_char H.
  by destruct (lower_strip_cons "-" t eq_refl) as [r ->].
Qed.




(** *** Subtitles *)

Lemma update_section_no_quick_summary (st : locals) (l2 : string) :
  Py.startswith l2 "quick summary" = false ->
  sect st <> Some QUICK_SUMMARY ->
  sect (update_section st l2) <> Some QUICK_SUMMARY.
Proof.
  intros H Hs. destruct st. unfold update_section. rewrite H. by_cases; done.
Qed.

(** What a classified line does to the subtitle list and to [sect]. *)
Lemma classify_subtitle (st st' : locals) (l : string) :
  classify st l = Ok st' ->
  (subtitle (bdinfo st') <> subtitle (bdinfo st) -> sect st' = Some QUICK_SUMMARY)
  /\ (Py.startswith (Py.lower (Py.strip l)) "quick summary" = false ->
      sect st <> Some QUICK_SUMMARY ->
      sect st' <> Some QUICK_SUMMARY /\ subtitle (bdinfo st') = subtitle (bdinfo st)).
Proof.
  unfold PasteParser.classify. intros Hc.
  pose proof (update_section_tracks st (Py.lower (Py.strip l))) as (_ & _ & Hsb & _ & _).
  pose proof (update_section_no_quick_summary st (Py.lower (Py.strip l))) as Hq.
  set (st0 := update_section st _) in *. clearbody st0. rewrite <- Hsb.
  destruct (sect st0) as [[]|] eqn:Hs0.
  - apply quick_summary_line_frame in Hc as (b & -> & _). project.
    split; [done|]. intros H1 H2. by destruct (Hq H1 H2).
  - simplify_eq. project. split; [done|]. intros _ _. by rewrite Hs0.
  - apply playlist_report_line_frame in Hc as (b & s2 & s3 & -> & Eb & _). project.
    split; [done|]. intros _ _. by rewrite Hs0.
  - apply eac3to_line_frame in Hc as [->|[e ->]]; project;
      (split; [done|]); intros _ _; by rewrite ?Hs0.
  - simplify_eq. split; [done|]. intros _ _. by rewrite Hs0.
Qed.

Lemma loop_without_quick_summary (ls : list string) :
  Forall (fun l => Py.startswith (Py.lower (Py.strip l)) "quick summary" = false) ls ->
  forall st st',
    sect st <> Some QUICK_SUMMARY -> loop st ls = Ok st' ->
    subtitle (bdinfo st') = subtitle (bdinfo st).
Proof.
  induction 1 as [|l ls Hl _ IH]; intros st st' Hs H.
  - cbn in H. by simplify_eq.
  - loop_step H st1 Hb; [|by simplify_eq].
    apply body_next in Hb as [_ [(_ & ->)|[(_ & _ & ->)|(_ & _ & Hc)]]].
    + by apply IH in H.
    + by apply IH in H.
    + apply classify_subtitle in Hc as [_ Hc]. destruct (Hc Hl Hs) as [Hs1 E].
      project. rewrite <- E. by apply IH.
Qed.

Lemma playlist_subtitles_heading (st : locals) (l : string) :
  sect st = Some PLAYLIST_REPORT ->
  Py.startswith (Py.lower (Py.strip l)) "subtitles:" = true ->
  classify st l = Ok (with_sect2 (Some PLAYLIST_SUBTITLES) st).
Proof.
  intros Hs H. unfold PasteParser.classify.
  assert (Py.startswith l "-" = false) as Hd.
  { destruct (Py.startswith l "-") eqn:Hd; [|done].
    apply lower_strip_dash in Hd. head_char H. done. }
  rewrite update_section_not_header, Hs.
  2:{ unfold is_header. by head_char H. }
  unfold PasteParser.playlist_report_line, playlist_heading. rewrite Hd, H.
  head_char H. by destruct st.
Qed.

(** C10.  The subtitle list changes only on a pass through the loop body
    that leaves [sect] at [QUICK_SUMMARY].  In the playlist report a line
    whose stripped lower-cased form starts with ["subtitles:"] sets [sect2]
    and nothing else.  So when no line of the input starts, stripped and
    lower-cased, with ["quick summary"], the subtitle list that [parse]
    returns is empty. *)
Theorem subtitles_only_from_quick_summary :
  (forall st l st',
      body st l = Ok (Next st') ->
      subtitle (bdinfo st') <> subtitle (bdinfo st) ->
      sect st' = Some QUICK_SUMMARY)
  /\ (forall st l,
        sect st = Some PLAYLIST_REPORT ->
        Py.startswith (Py.lower (Py.strip l)) "subtitles:" = true ->
        classify st l = Ok (with_sect2 (Some PLAYLIST_SUBTITLES) st))
  /\ (forall lines b m e,
        Forall (fun l => Py.startswith (Py.lower (Py.strip l)) "quick summary" = false)
               lines ->
        parse_lines lines = Ok (b, m, e) ->
        subtitle b = []).
Proof.
  split; [|split].
  - intros st l st' H Hne.
    apply body_next in H as [_ [(_ & ->)|[(_ & _ & ->)|(_ & _ & Hc)]]]; [done..|].
    apply classify_subtitle in Hc as [Hc _]. by apply Hc.
  - apply playlist_subtitles_heading.
  - intros lines b m e Hall H. unfold PasteParser.parse_lines in H.
    destruct (loop initial lines) as [st'|] eqn:Hl; cbn in H; [|discriminate].
    unfold returned in H. simplify_eq.
    by apply loop_without_quick_summary in Hl.
Qed.

(** *** Transcoder logs *)

Lemma with_ignore_next_lines_same (st : locals) :
  with_ignore_next_lines (ignore_next_lines st) st = st.
Proof. by destruct st. Qed.

Lemma body_passes (st : locals) (l : string) :
  passes cfg l -> ignore_next_lines st = false ->
  body st l = bind (classify st l) (fun st' => Ok (Next st')).
Proof.
  intros (Hc & Hb & Ht) Hi. rewrite body_classified by done.
  by rewrite Ht, <- Hi, with_ignore_next_lines_same.
Qed.

Lemma append_eac3to_last (st : locals) (logs : list (list string))
      (log : list string) (l : string) :
  index_is_last st -> eac3to st = logs ++ [log] ->
  append_eac3to l st = Ok (with_eac3to (logs ++ [log ++ [l]]) st).
Proof.
  unfold index_is_last, append_eac3to, py_index. intros Hi He.
  rewrite He in *. rewrite length_app in *. cbn [length] in *.
  assert (eac3to_index st = Z.of_nat (length logs)) as -> by lia.
  rewrite (proj2 (andb_true_iff _ _)) by (split; [apply Z.leb_le|apply Z.ltb_lt]; lia).
  rewrite Nat2Z.id. unfold subscript. rewrite list_lookup_middle by done.
  cbn [bind]. rewrite insert_app_r_alt by done. by rewrite Nat.sub_diag.
Qed.

Lemma not_done_of_lower_head (l : string) (c : ascii) (t : string) :
  Py.lower (Py.strip l) = String c t -> c <> "d"%char ->
  Py.startswith l "Done." = false.
Proof.
  intros E Hc. destruct (Py.startswith l "Done.") eqn:H; [|done].
  head_char H. destruct (lower_strip_cons "D" t0 eq_refl) as [r Hr].
  rewrite Hr in E. by simplify_eq.
Qed.

(** A header line opens a new log that holds the header line. *)
Lemma classify_eac3to_header (st : locals) (l : string) :
  index_is_last st ->
  Py.startswith (Py.lower (Py.strip l)) "eac3to v" = true ->
  classify st l
  = Ok (with_eac3to_index (eac3to_index st + 1)
          (with_eac3to (eac3to st ++ [[l]]) (with_sect (Some EAC3TO_LOG) st))).
Proof.
  intros Hi H. unfold PasteParser.classify. rewrite update_section_eac3to by done.
  project. unfold eac3to_line.
  assert (Py.startswith l "Done." = false) as ->.
  { apply startswith_cons in H as (t & E & _).
    by apply (not_done_of_lower_head l "e" t). }
  rewrite (append_eac3to_last _ (eac3to st) [] l); [by destruct st| |done].
  unfold index_is_last in *. project. rewrite length_app. cbn [length]. lia.
Qed.

(** A line of an open log that is no header and does not begin with
    ["Done."] is appended to the last log; the other logs stay. *)
Lemma classify_eac3to_interior (st : locals) (logs : list (list string))
      (log : list string) (l : string) :
  index_is_last st -> sect st = Some EAC3TO_LOG -> eac3to st = logs ++ [log] ->
  is_header (Py.lower (Py.strip l)) = false -> Py.startswith l "Done." = false ->
  classify st l = Ok (with_eac3to (logs ++ [log ++ [l]]) st).
Proof.
  intros Hi Hs He Hh Hd. unfold PasteParser.classify.
  rewrite update_section_not_header, Hs by done. unfold eac3to_line. rewrite Hd.
  by apply append_eac3to_last.
Qed.


Lemma loop_interior (b rest : list string) :
  Forall (interior cfg) b ->
  forall st logs log,
    ignore_next_lines st = false -> index_is_last st ->
    sect st = Some EAC3TO_LOG -> eac3to st = logs ++ [log] ->
    loop st (b ++ rest) = loop (with_eac3to (logs ++ [log ++ b]) st) rest.
Proof.
  induction 1 as [|l b (Hp & Hh & Hd) _ IH]; intros st logs log Hi Hx Hs He.
  - cbn [app]. rewrite app_nil_r, <- He. by destruct st.
  - cbn [app PasteParser.loop]. rewrite body_passes by done.
    rewrite (classify_eac3to_interior st logs log) by done. cbn [bind].
    rewrite (IH _ logs (log ++ [l])); [|done| |done|done].
    + rewrite <- app_assoc. by destruct st.
    + unfold index_is_last in *. project. rewrite He in Hx.
      rewrite length_app in *. cbn [length] in *. lia.
Qed.


Lemma update_section_log_inv (st : locals) (l2 : string) :
  log_inv st -> log_inv (update_section st l2).
Proof.
  destruct st as [b m e i s s2 s3 ign did].
  unfold log_inv, index_is_last, update_section. project. intros [Hi He].
  by_cases; (split; [rewrite ?length_app; cbn [length]; lia|]);
    try done; intros _; by destruct e.
Qed.

Lemma eac3to_line_log_inv (st st' : locals) (l : string) :
  eac3to_line st l = Ok st' -> log_inv st -> log_inv st'.
Proof.
  destruct st as [b m e i s s2 s3 ign did].
  unfold log_inv, index_is_last. unfold_handlers. project. intros H [Hi He].
  by_cases; (split; [rewrite ?length_insert; lia|]); try done.
  intros Hs En. apply (f_equal length) in En. rewrite length_insert in En.
  destruct e; [by apply He|done].
Qed.

Lemma classify_log_inv (st st' : locals) (l : string) :
  classify st l = Ok st' -> log_inv st -> log_inv st'.
Proof.
  unfold PasteParser.classify. intros Hc Hinv.
  apply (update_section_log_inv _ (Py.lower (Py.strip l))) in Hinv.
  set (st0 := update_section st _) in *. clearbody st0.
  destruct (sect st0) as [[]|] eqn:Hs0.
  - by apply quick_summary_line_frame in Hc as (b & -> & _).
  - by simplify_eq.
  - by apply playlist_report_line_frame in Hc as (b & s2 & s3 & -> & _).
  - by apply eac3to_line_log_inv in Hc.
  - by simplify_eq.
Qed.

(** A line that starts another section ends the open log: the list of
    logs stays as it is and [sect] leaves [EAC3TO_LOG]. *)
Lemma update_section_other_header (st : locals) (l2 : string) :
  is_header l2 = true -> Py.startswith l2 "eac3to v" = false ->
  eac3to (update_section st l2) = eac3to st
  /\ sect (update_section st l2) <> Some EAC3TO_LOG.
Proof.
  destruct st. unfold is_header, update_section. intros H He. rewrite He in *.
  by_cases; done.
Qed.

Lemma classify_other_header (st st' : locals) (l : string) :
  classify st l = Ok st' ->
  is_header (Py.lower (Py.strip l)) = true ->
  Py.startswith (Py.lower (Py.strip l)) "eac3to v" = false ->
  eac3to st' = eac3to st /\ sect st' <> Some EAC3TO_LOG.
Proof.
  unfold PasteParser.classify. intros Hc Hh He.
  destruct (update_section_other_header st _ Hh He) as [E Hs]. rewrite <- E.
  set (st0 := update_section st _) in *. clearbody st0.
  destruct (sect st0) as [[]|] eqn:Hs0; [| | |done|].
  - apply quick_summary_line_frame in Hc as (b & -> & _). project. by rewrite Hs0.
  - simplify_eq. project. by rewrite Hs0.
  - apply playlist_report_line_frame in Hc as (b & s2 & s3 & -> & _). project.
    by rewrite Hs0.
  - simplify_eq. by rewrite Hs0.
Qed.


Lemma log_inv_initial : log_inv initial.
Proof. split; [reflexivity|discriminate]. Qed.


(** *** The compatibility track *)

Lemma audio_line_has_colon (l : string) :
  Py.startswith (Py.lower (Py.strip l)) "audio:" = true -> Py.contains ":" l = true.
Proof.
  intros H. apply contains_colon_lower_strip. by do 6 head_char H.
Qed.

Lemma audio_line_dispatch (l2 : string) :
  Py.startswith l2 "audio:" = true ->
  is_header l2 = false /\ Py.startswith l2 "video:" = false.
Proof. intros H. unfold is_header. by head_char H. Qed.

Lemma re_split_marker_first (s p0 p1 : string) (more : list string) :
  re_split_marker s = p0 :: p1 :: more ->
  exists m rest,
    first_marker s p0 m rest /\ re_split_marker rest = p1 :: more.
Proof.
  intros H. apply re_split_from_parts in H
    as (pre & m & rest & E & Ep0 & Elm & Hfirst & Hrest).
  rewrite string_app_nil_l in Ep0. subst p0. by exists m, rest.
Qed.

(** The piece after a match ends at the next match; it is all of the
    text after the match only when that text has no match. *)
Lemma re_split_marker_next (rest post : string) (more : list string) :
  re_split_marker rest = post :: more ->
  (Py.contains marker_pattern (Py.lower rest) = false /\ post = rest)
  \/ exists m' rest', first_marker rest post m' rest'.
Proof.
  intros H. destruct more as [|p2 more'].
  - left. split.
    + destruct (Py.contains marker_pattern (Py.lower rest)) eqn:Hc; [|done].
      apply (re_split_from_two "(" "ac3 embedded:" "") in Hc as (p0 & p1 & more & Hr).
      unfold re_split_marker, marker_pattern in H. congruence.
    + apply re_split_from_head in H as (pre & tl & E & Ep & Htl).
      rewrite string_app_nil_l in Ep. subst. by rewrite (Htl eq_refl), string_app_nil_r.
  - right. apply re_split_marker_first in H as (m' & rest' & H & _). eauto.
Qed.

Lemma lower_app (a b : string) : Py.lower (a +:+ b) = Py.lower a +:+ Py.lower b.
Proof. induction a as [|c a IH]; [done|]. rewrite !string_app_cons. cbn. by rewrite IH. Qed.

Lemma startswith_app_self (p r : string) : Py.startswith (p +:+ r) p = true.
Proof.
  induction p as [|c p IH]; [done|]. rewrite string_app_cons. cbn.
  by rewrite Ascii.eqb_refl.
Qed.

Lemma string_app_same_length (a b a' b' : string) :
  a +:+ b = a' +:+ b' -> String.length a = String.length a' -> a = a' /\ b = b'.
Proof.
  revert a'. induction a as [|c a IH]; intros [|c' a'] E Hl; try done.
  rewrite !string_app_cons in E. injection E as -> E. injection Hl as Hl.
  by destruct (IH _ E Hl) as [-> ->].
Qed.

Lemma first_marker_starts (s m rest : string) :
  s = m +:+ rest -> Py.lower m = marker_pattern ->
  Py.startswith (Py.lower s) marker_pattern = true.
Proof. intros -> Hm. rewrite lower_app, Hm. apply startswith_app_self. Qed.

(** The first occurrence of the marker is one place: [first_marker] fixes
    the three parts of the text. *)
Lemma first_marker_unique (s pre m rest pre' m' rest' : string) :
  first_marker s pre m rest -> first_marker s pre' m' rest' ->
  pre = pre' /\ m = m' /\ rest = rest'.
Proof.
  intros (E & Hm & Hno) (E' & Hm' & Hno'). subst s.
  revert pre' E' Hno'. induction pre as [|c p IH]; intros [|c' p'] E' Hno'.
  - rewrite !string_app_nil_l in E'.
    destruct (string_app_same_length _ _ _ _ E') as [-> ->]; [|done].
    by rewrite <- (lower_length m), <- (lower_length m'), Hm, Hm'.
  - assert (Py.startswith (Py.lower (String c' p' +:+ m' +:+ rest')) marker_pattern
            = false) as Hf by (by apply (Hno' "")).
    rewrite <- E', string_app_nil_l in Hf.
    by rewrite (first_marker_starts _ m rest) in Hf.
  - assert (Py.startswith (Py.lower (String c p +:+ m +:+ rest)) marker_pattern
            = false) as Hf by (by apply (Hno "")).
    rewrite E', string_app_nil_l in Hf.
    by rewrite (first_marker_starts _ m' rest') in Hf.
  - rewrite !string_app_cons in E'. injection E' as -> E'.
    destruct (IH (fun x y Hx Hy => Hno (String c' x) y (f_equal (String c') Hx) Hy)
                 p' E'
                 (fun x y Hx Hy => Hno' (String c' x) y (f_equal (String c') Hx) Hy))
      as (-> & -> & ->).
    done.
Qed.

(** C2 (as amended).  Take a line of the Quick Summary whose stripped
    lower-cased form starts with ["audio:"].  The line has a colon; let
    [after] be the text after the first one.  When the stripped [after]
    has ["(ac3 embedded:"] in some letter case, it reads
    [pre ++ m ++ rest] with [m] the first occurrence of that marker, and
    the line appends exactly two entries to the audio list:
    [format_track_name pre], then [format_track_name] of the fixed prefix
    followed by [post] stripped of white space and then of every closing
    parenthesis at its end, where [post] is [rest] up to the first
    occurrence of the marker in [rest], and all of [rest] only when [rest]
    has no occurrence of it ([first_marker_unique]: the first occurrence
    is one place).  On the line of the example the text after the marker
    keeps its first field. *)
Theorem compatibility_track_split :
  (forall st l,
      sect st = Some QUICK_SUMMARY ->
      Py.startswith (Py.lower (Py.strip l)) "audio:" = true ->
      exists key after,
        Py.split_char_1 ":" l = [key; after] /\ l = key +:+ String ":" after
        /\ (Py.contains marker_pattern (Py.lower (Py.strip after)) = true ->
            exists pre m rest post,
              first_marker (Py.strip after) pre m rest
              /\ ((Py.contains marker_pattern (Py.lower rest) = false /\ post = rest)
                  \/ exists m' rest', first_marker rest post m' rest')
              /\ classify st l
                 = Ok (append_audio
                         (format_track_name
                            (compat_prefix +:+ Py.rstrip_paren (Py.strip post)))
                         (append_audio (format_track_name pre) st))))
  /\ PasteParser.parse format_track_name format_video_track_name
       playlist_report_format_video_track_name
       playlist_report_format_audio_track_name blank_config
       (text_of
          ["Quick Summary";
           "Audio: DTS-HD Master Audio 5.1 (ac3 embedded: Dolby Digital Audio 2.0 / 48 kHz / 192 kbps)"])
     = Ok ({| video := [];
              audio :=
                [format_track_name "DTS-HD Master Audio 5.1 ";
                 format_track_name
                   "Compatibility Track / Dolby Digital Audio / Dolby Digital Audio 2.0 / 48 kHz / 192 kbps"];
              subtitle := [];
              type_ := Some BD_QUICK_SUMMARY |}, [], []).
Proof.
  split; [|reflexivity].
  intros st l Hs Ha.
  destruct (split_char_1_two l (audio_line_has_colon l Ha)) as (key & after & Hsp & El).
  exists key, after. split; [done|]. split; [done|]. intros Hm.
  destruct (re_split_from_two "(" "ac3 embedded:" "" (Py.strip after) Hm)
    as (p0 & p1 & more & Hr).
  destruct (re_split_marker_first _ _ _ _ Hr) as (m & rest & Hfirst & Hrest).
  exists p0, m, rest, p1. split; [done|].
  split; [by apply (re_split_marker_next rest p1 more)|].
  destruct (audio_line_dispatch _ Ha) as [Hh Hv].
  unfold PasteParser.classify. rewrite update_section_not_header, Hs by done.
  unfold PasteParser.quick_summary_line. rewrite Hv, Ha, Hsp. cbn [subscript lookup list_lookup bind].
  rewrite contains_marker_test by done.
  unfold re_split_marker. unfold marker_pattern. rewrite Hr. reflexivity.
Qed.

(** *** When [parse] returns *)

Lemma key_line_colon (l : string) :
  Py.startswith (Py.lower (Py.strip l)) "video:" = true
  \/ Py.startswith (Py.lower (Py.strip l)) "audio:" = true
  \/ Py.startswith (Py.lower (Py.strip l)) "subtitle:" = true ->
  Py.colon_before_paren l = true.
Proof.
  intros H. apply colon_before_paren_lower_strip.
  destruct H as [H|[H|H]]; [by do 6 head_char H|by do 6 head_char H|by do 9 head_char H].
Qed.

Lemma key_line_split (l : string) :
  Py.colon_before_paren l = true ->
  exists key after, Py.split_char_1 ":" l = [key; after].
Proof.
  intros H. apply colon_before_paren_contains, split_char_1_two in H
    as (key & after & ? & _). eauto.
Qed.

Lemma key_line_split_stripped (w : string) :
  Py.contains ":" w = true ->
  exists key after, Py.split_char_1 ":" (Py.strip w) = [key; after].
Proof.
  intros H. apply contains_colon_into_strip, split_char_1_two in H
    as (key & after & ? & _). eauto.
Qed.

Lemma marker_split_two (s : string) :
  Py.contains marker_pattern (Py.lower s) = true ->
  exists p0 p1 more, re_split_marker s = p0 :: p1 :: more.
Proof. apply (re_split_from_two "(" "ac3 embedded:" ""). Qed.

Lemma quick_summary_line_returns (st : locals) (l : string) :
  markers_complete l ->
  exists st', quick_summary_line st l (Py.lower (Py.strip l)) = Ok st'.
Proof.
  intros [_ Hafter]. unfold PasteParser.quick_summary_line.
  destruct (Py.startswith _ "video:") eqn:Hv.
  { destruct (key_line_split l) as (key & after & ->); [|cbn; eauto].
    apply key_line_colon. auto. }
  destruct (Py.startswith _ "audio:") eqn:Ha.
  { pose proof (key_line_colon l (or_intror (or_introl Ha))) as Hcolon.
    destruct (key_line_split l Hcolon) as (key & after & Hsp). rewrite Hsp.
    cbn [subscript lookup list_lookup bind].
    destruct (Py.contains marker_test _) eqn:Hm.
    - apply (Hafter key after Hsp), marker_split_two in Hm as (p0 & p1 & more & ->).
      cbn. eauto.
    - destruct (Py.contains "(" l).
      + destruct (split_char_cons "(" l) as (w & ws & Hw). rewrite Hw.
        cbn [subscript lookup list_lookup bind].
        destruct (key_line_split_stripped w) as (k & a & ->); [|cbn; eauto].
        by apply (colon_before_paren_split l w ws).
      + cbn [bind].
        destruct (key_line_split_stripped l) as (k & a & ->); [|cbn; eauto].
        by apply colon_before_paren_contains. }
  destruct (Py.startswith _ "subtitle:") eqn:Hsb; [|eauto].
  destruct (key_line_split l) as (key & after & ->); [|cbn; eauto].
  apply key_line_colon. auto.
Qed.

Lemma playlist_report_line_returns (st : locals) (l l2 : string) :
  marker_complete l -> exists st', playlist_report_line st l l2 = Ok st'.
Proof.
  intros Hl. unfold PasteParser.playlist_report_line.
  set (st0 := playlist_heading st l2). clearbody st0.
  destruct (Py.startswith l2 "-----"); [by_cases; eauto|].
  destruct (Py.startswith l "-"); [eauto|].
  destruct (sect2 st0) as [[]|], (sect3 st0) as [[]|]; eauto.
  unfold PasteParser.playlist_compat_track.
  destruct (Py.contains marker_test _) eqn:Hm; [|eauto].
  apply Hl, marker_split_two in Hm as (p0 & p1 & more & ->). cbn. eauto.
Qed.

Lemma eac3to_line_returns (st : locals) (l : string) :
  log_inv st -> sect st = Some EAC3TO_LOG -> exists st', eac3to_line st l = Ok st'.
Proof.
  intros [Hi He] Hs. unfold eac3to_line. destruct (Py.startswith l "Done."); [eauto|].
  specialize (He Hs). destruct (eac3to st) as [|x xs] eqn:E using rev_ind; [done|].
  rewrite (append_eac3to_last st xs x l) by done. eauto.
Qed.

Lemma classify_returns (st : locals) (l : string) :
  log_inv st -> markers_complete l -> exists st', classify st l = Ok st'.
Proof.
  intros Hinv Hl. unfold PasteParser.classify.
  apply (update_section_log_inv _ (Py.lower (Py.strip l))) in Hinv.
  set (st0 := update_section st _) in *. clearbody st0.
  destruct (sect st0) as [[]|] eqn:Hs0; [| | | |eauto].
  - by apply quick_summary_line_returns.
  - eauto.
  - apply playlist_report_line_returns, Hl.
  - by apply eac3to_line_returns.
Qed.

Lemma loop_returns (ls : list string) :
  Forall markers_complete ls ->
  forall st, log_inv st -> exists st', loop st ls = Ok st'.
Proof.
  induction 1 as [|l ls Hl _ IH]; intros st Hinv; [cbn; eauto|].
  cbn [PasteParser.loop]. unfold PasteParser.body.
  destruct (_isIgnoreAfterLine cfg l); [eauto|].
  destruct (Py.truthy (Py.strip l)); cbn [negb]; [|by apply IH].
  destruct (ignore_next_lines st) eqn:Hi; [by apply IH|].
  rewrite check_prefixes_spec, Hi.
  destruct (classify_returns (with_ignore_next_lines (false || skip_trigger cfg l) st) l)
    as (st1 & Hc); [done..|].
  rewrite Hc. cbn [bind]. apply IH. by apply classify_log_inv in Hc.
Qed.

(** X14.  [parse] returns on every text whose markers are whole: when in
    every line, and in the stripped text after its first colon, the words
    ["ac3 embedded"] come with the whole of ["(ac3 embedded:"], no
    subscript of the loop is out of range. *)
Lemma parse_returns (text : string) :
  Forall markers_complete (Py.splitlines text) ->
  exists r,
    PasteParser.parse format_track_name format_video_track_name
      playlist_report_format_video_track_name
      playlist_report_format_audio_track_name cfg text = Ok r.
Proof.
  intros H. unfold PasteParser.parse, PasteParser.parse_lines.
  destruct (loop_returns _ H initial log_inv_initial) as (st' & ->). cbn. eauto.
Qed.

(** *** The raw line sequences *)

Lemma eac3to_line_cases (st st1 : locals) (l : string) :
  eac3to_line st l = Ok st1 -> log_inv st -> sect st = Some EAC3TO_LOG ->
  (Py.startswith l "Done." = true /\ st1 = with_sect None st)
  \/ (Py.startswith l "Done." = false
      /\ exists logs log,
          eac3to st = logs ++ [log] /\ st1 = with_eac3to (logs ++ [log ++ [l]]) st).
Proof.
  unfold eac3to_line. intros H [Hi He] Hs.
  destruct (Py.startswith l "Done."); [left; by simplify_eq|right].
  split; [done|]. specialize (He Hs).
  destruct (eac3to st) as [|x xs] eqn:E using rev_ind; [done|].
  rewrite (append_eac3to_last st xs x l) in H by done. simplify_eq. eauto.
Qed.

Lemma update_section_raw (st : locals) (l2 : string) :
  mediainfo (update_section st l2) = mediainfo st
  /\ concat (eac3to (update_section st l2)) = concat (eac3to st).
Proof.
  destruct st. unfold update_section.
  by_cases; rewrite ?concat_app; cbn [concat]; by rewrite ?app_nil_r.
Qed.

(** A classified line goes to [mediainfo], to the end of the last log,
    or to neither. *)
Lemma classify_raw (st st1 : locals) (l : string) :
  classify st l = Ok st1 -> log_inv st ->
  (mediainfo st1 = mediainfo st /\ concat (eac3to st1) = concat (eac3to st))
  \/ (mediainfo st1 = mediainfo st ++ [l] /\ concat (eac3to st1) = concat (eac3to st))
  \/ (mediainfo st1 = mediainfo st /\ concat (eac3to st1) = concat (eac3to st) ++ [l]).
Proof.
  unfold PasteParser.classify. intros Hc Hinv.
  apply (update_section_log_inv _ (Py.lower (Py.strip l))) in Hinv.
  destruct (update_section_raw st (Py.lower (Py.strip l))) as [Em Ec].
  rewrite <- Em, <- Ec. set (st0 := update_section st _) in *. clearbody st0.
  destruct (sect st0) as [[]|] eqn:Hs0.
  - apply quick_summary_line_frame in Hc as (b & -> & _). by left.
  - simplify_eq. right; left. done.
  - apply playlist_report_line_frame in Hc as (b & s2 & s3 & -> & _). by left.
  - apply eac3to_line_cases in Hc as [(_ & ->)|(_ & logs & log & E & ->)]; [by left|..|done|done].
    right; right. project. split; [done|].
    by rewrite E, !concat_app, <- app_assoc; cbn [concat]; rewrite !app_nil_r.
  - simplify_eq. by left.
Qed.

Lemma loop_raw (ls : list string) :
  forall st st',
    log_inv st -> loop st ls = Ok st' ->
    exists dm de,
      mediainfo st' = mediainfo st ++ dm
      /\ concat (eac3to st') = concat (eac3to st) ++ de
      /\ sublist dm ls /\ sublist de ls
      /\ Forall (fun l => Py.truthy (Py.strip l) = true) (dm ++ de)
      /\ length dm + length de <= length ls.
Proof.
  induction ls as [|l ls IH]; intros st st' Hinv H.
  - cbn in H. simplify_eq. exists [], []. rewrite !app_nil_r. by repeat constructor.
  - loop_step H st1 Hb.
    2:{ simplify_eq. exists [], []. rewrite !app_nil_r. cbn.
        repeat split; try apply sublist_nil_l; [constructor|lia]. }
    apply body_next in Hb as [_ [(_ & ->)|[(_ & _ & ->)|(Hnb & _ & Hc)]]].
    + apply IH in H as (dm & de & ? & ? & ? & ? & ? & ?); [|done].
      exists dm, de. repeat split; try done; try by apply sublist_cons. cbn; lia.
    + apply IH in H as (dm & de & ? & ? & ? & ? & ? & ?); [|done].
      exists dm, de. repeat split; try done; try by apply sublist_cons. cbn; lia.
    + pose proof (classify_log_inv _ _ _ Hc Hinv) as Hinv1.
      apply classify_raw in Hc; [|done]. project.
      apply IH in H as (dm & de & Hm & He & Sm & Se & Hall & Hlen); [|done].
      apply Forall_app in Hall as [Hdm Hde].
      destruct Hc as [(Em & Ec)|[(Em & Ec)|(Em & Ec)]].
      * exists dm, de. rewrite Hm, He, Em, Ec.
        repeat split; try done; try by apply sublist_cons.
        -- by apply Forall_app.
        -- cbn; lia.
      * exists (l :: dm), de. rewrite Hm, He, Em, Ec, <- app_assoc.
        repeat split; try done; [by apply sublist_skip|by apply sublist_cons| |cbn; lia].
        apply Forall_app. split; [by constructor|done].
      * exists dm, (l :: de). rewrite Hm, He, Em, Ec, <- app_assoc.
        repeat split; try done; [by apply sublist_cons|by apply sublist_skip| |].
        -- apply Forall_app. split; [done|by constructor].
        -- rewrite length_cons. cbn [length]. lia.
Qed.

(** X6.  The two raw sequences keep the input: [mediainfo] and the logs
    laid end to end are each made of lines of the input in their order,
    none of them blank, and together they hold no more lines than the
    input has, a line going to one of them at most. *)
Theorem raw_lines_kept_in_order (lines : list string) (b : bdinfo_dict)
        (m : list string) (e : list (list string)) :
  parse_lines lines = Ok (b, m, e) ->
  sublist m lines /\ sublist (concat e) lines
  /\ Forall (fun l => Py.truthy (Py.strip l) = true) (m ++ concat e)
  /\ length m + length (concat e) <= length lines.
Proof.
  intros H. unfold PasteParser.parse_lines in H.
  destruct (loop initial lines) as [st'|] eqn:Hl; cbn in H; [|discriminate].
  unfold returned in H. simplify_eq.
  apply loop_raw in Hl as (dm & de & Hm & He & ? & ? & ? & ?); [|apply log_inv_initial].
  cbn in Hm, He. by rewrite Hm, He.
Qed.

(** *** The shape of a log *)

Lemma update_section_eac3to_same (st : locals) (l2 : string) :
  Py.startswith l2 "eac3to v" = false ->
  eac3to (update_section st l2) = eac3to st.
Proof. intros H. destruct st. unfold update_section. rewrite H. by_cases; done. Qed.

Lemma classify_log_with_header (st st1 : locals) (l : string) :
  classify st l = Ok st1 -> log_inv st ->
  Forall log_with_header (eac3to st) -> Forall log_with_header (eac3to st1).
Proof.
  intros Hc Hinv Hall.
  destruct (Py.startswith (Py.lower (Py.strip l)) "eac3to v") eqn:Hh.
  - rewrite classify_eac3to_header in Hc by (done || apply Hinv). simplify_eq. project.
    apply Forall_app. split; [done|]. constructor; [|constructor].
    split; [by exists l, []|]. constructor; [|constructor].
    pose proof Hh as Hh'. apply startswith_cons in Hh' as (t & E & _).
    by apply (not_done_of_lower_head l "e" t).
  - revert Hc. unfold PasteParser.classify.
    apply (update_section_log_inv _ (Py.lower (Py.strip l))) in Hinv.
    rewrite <- (update_section_eac3to_same st _ Hh) in Hall.
    set (st0 := update_section st _) in *. clearbody st0. intros Hc.
    destruct (sect st0) as [[]|] eqn:Hs0.
    + by apply quick_summary_line_frame in Hc as (b & -> & _).
    + by simplify_eq.
    + by apply playlist_report_line_frame in Hc as (b & s2 & s3 & -> & _).
    + apply eac3to_line_cases in Hc as [(_ & ->)|(Hd & logs & log & E & ->)];
        [done| |done|done].
      project. rewrite E in Hall. apply Forall_app in Hall as [Hlogs Hlog].
      apply Forall_app. split; [done|]. constructor; [|constructor].
      apply Forall_inv in Hlog as [(h & rest & -> & Hhd) Hnd].
      split; [by exists h, (rest ++ [l])|].
      apply Forall_app. split; [done|]. by constructor.
    + by simplify_eq.
Qed.

Lemma loop_log_with_header (ls : list string) :
  forall st st',
    log_inv st -> Forall log_with_header (eac3to st) ->
    loop st ls = Ok st' -> Forall log_with_header (eac3to st').
Proof.
  induction ls as [|l ls IH]; intros st st' Hinv Hall H.
  - cbn in H. by simplify_eq.
  - loop_step H st1 Hb; [|by simplify_eq].
    apply body_next in Hb as [_ [(_ & ->)|[(_ & _ & ->)|(_ & _ & Hc)]]].
    + by apply IH in H.
    + by apply IH in H.
    + apply (IH st1); [|by apply (classify_log_with_header _ _ _ Hc)|done].
      by apply (classify_log_inv _ _ _ Hc).
Qed.

(** X7.  Every returned log is not empty: it begins with its header, a
    line whose stripped lower-cased form starts with ["eac3to v"], and it
    holds no line that begins with ["Done."]. *)
Theorem logs_begin_with_header (lines : list string) (b : bdinfo_dict)
        (m : list string) (e : list (list string)) :
  parse_lines lines = Ok (b, m, e) -> Forall log_with_header e.
Proof.
  intros H. unfold PasteParser.parse_lines in H.
  destruct (loop initial lines) as [st'|] eqn:Hl; cbn in H; [|discriminate].
  unfold returned in H. simplify_eq.
  apply loop_log_with_header in Hl; [done|apply log_inv_initial|constructor].
Qed.

(** *** The report kind *)

Lemma update_section_no_report_yet (st : locals) (l2 : string) :
  no_report_yet st -> no_report_yet (update_section st l2).
Proof.
  destruct st as [[v a sb ty] m e i s s2 s3 ign did].
  unfold no_report_yet, update_section. project. intros H.
  by_cases; try done; intros Hty; destruct (H Hty) as (? & ? & ? & ? & ?); done.
Qed.

Lemma classify_no_report_yet (st st1 : locals) (l : string) :
  classify st l = Ok st1 -> no_report_yet st -> no_report_yet st1.
Proof.
  unfold PasteParser.classify. intros Hc Hinv.
  apply (update_section_no_report_yet _ (Py.lower (Py.strip l))) in Hinv.
  set (st0 := update_section st _) in *. clearbody st0.
  unfold no_report_yet in *.
  destruct (sect st0) as [[]|] eqn:Hs0.
  - apply quick_summary_line_frame in Hc as (b & -> & Ety). project.
    rewrite Ety. intros Hty. by destruct (Hinv Hty) as (? & _).
  - simplify_eq. project. intros Hty.
    destruct (Hinv Hty) as (? & ? & ? & ? & ?). by rewrite Hs0.
  - apply playlist_report_line_frame in Hc as (b & s2 & s3 & -> & _ & Ety). project.
    rewrite Ety. intros Hty. by destruct (Hinv Hty) as (_ & ? & _).
  - apply eac3to_line_frame in Hc as [->|[e ->]]; project; intros Hty;
      destruct (Hinv Hty) as (? & ? & ? & ? & ?); by rewrite ?Hs0.
  - simplify_eq. intros Hty. destruct (Hinv Hty) as (? & ? & ? & ? & ?).
    by rewrite Hs0.
Qed.

Lemma update_section_type (st : locals) (l2 : string) :
  Py.startswith l2 "quick summary" = false ->
  Py.startswith l2 "playlist report" = false ->
  type_ (bdinfo (update_section st l2)) = type_ (bdinfo st).
Proof.
  intros Hq Hp. destruct st. unfold update_section. rewrite Hq, Hp. by_cases; done.
Qed.

Lemma classify_type (st st1 : locals) (l : string) :
  classify st l = Ok st1 ->
  Py.startswith (Py.lower (Py.strip l)) "quick summary" = false ->
  Py.startswith (Py.lower (Py.strip l)) "playlist report" = false ->
  type_ (bdinfo st1) = type_ (bdinfo st).
Proof.
  unfold PasteParser.classify. intros Hc Hq Hp.
  rewrite <- (update_section_type st _ Hq Hp).
  set (st0 := update_section st _) in *. clearbody st0.
  destruct (sect st0) as [[]|] eqn:Hs0.
  - by apply quick_summary_line_frame in Hc as (b & -> & Ety).
  - by simplify_eq.
  - by apply playlist_report_line_frame in Hc as (b & s2 & s3 & -> & _ & Ety).
  - by apply eac3to_line_frame in Hc as [->|[e ->]].
  - by simplify_eq.
Qed.

Lemma loop_no_report_yet (ls : list string) :
  forall st st', no_report_yet st -> loop st ls = Ok st' -> no_report_yet st'.
Proof.
  induction ls as [|l ls IH]; intros st st' Hinv H.
  - cbn in H. by simplify_eq.
  - loop_step H st1 Hb; [|by simplify_eq].
    apply body_next in Hb as [_ [(_ & ->)|[(_ & _ & ->)|(_ & _ & Hc)]]].
    + by apply IH in H.
    + by apply IH in H.
    + apply (IH st1); [|done]. by apply (classify_no_report_yet _ _ _ Hc).
Qed.

Lemma loop_type (ls : list string) :
  Forall (fun l => Py.startswith (Py.lower (Py.strip l)) "quick summary" = false
                   /\ Py.startswith (Py.lower (Py.strip l)) "playlist report" = false)
         ls ->
  forall st st', loop st ls = Ok st' -> type_ (bdinfo st') = type_ (bdinfo st).
Proof.
  induction 1 as [|l ls [Hq Hp] _ IH]; intros st st' H.
  - cbn in H. by simplify_eq.
  - loop_step H st1 Hb; [|by simplify_eq].
    apply body_next in Hb as [_ [(_ & ->)|[(_ & _ & ->)|(_ & _ & Hc)]]].
    + by apply IH in H.
    + by apply IH in H.
    + apply IH in H. rewrite H. by apply classify_type in Hc.
Qed.

(** X8.  Track entries come with a report kind: when the returned
    [bdinfo] has no ["type"] key, its three track lists are empty; and the
    key is absent whenever no line of the input starts, stripped and
    lower-cased, with ["quick summary"] or ["playlist report"]. *)
Theorem tracks_need_report_heading (lines : list string) (b : bdinfo_dict)
        (m : list string) (e : list (list string)) :
  parse_lines lines = Ok (b, m, e) ->
  (type_ b = None -> video b = [] /\ audio b = [] /\ subtitle b = [])
  /\ (Forall (fun l =>
                Py.startswith (Py.lower (Py.strip l)) "quick summary" = false
                /\ Py.startswith (Py.lower (Py.strip l)) "playlist report" = false)
             lines ->
      type_ b = None).
Proof.
  intros H. unfold PasteParser.parse_lines in H.
  destruct (loop initial lines) as [st'|] eqn:Hl; cbn in H; [|discriminate].
  unfold returned in H. simplify_eq. split.
  - intros Hty. apply loop_no_report_yet in Hl.
    + by destruct (Hl Hty) as (_ & _ & ?).
    + intros _. by repeat split.
  - intros Hall. by apply (loop_type _ Hall) in Hl.
Qed.

(** *** Edges of the truncation policy *)

Lemma contains_empty (s : string) : Py.contains "" s = true.
Proof. by destruct s. Qed.

(** X9.  With the cutoff mode ["contains"] and an empty cutoff text the
    test holds of every line, so [parse] returns the empty result on
    every text. *)
Theorem empty_contains_cutoff_returns_nothing (text : string) :
  IGNORE_AFTER_LINE_METHOD cfg = "contains" -> IGNORE_AFTER_LINE cfg = "" ->
  PasteParser.parse format_track_name format_video_track_name
    playlist_report_format_video_track_name
    playlist_report_format_audio_track_name cfg text
  = Ok (bdinfo initial, [], []).
Proof.
  intros Hm Ht. unfold PasteParser.parse, PasteParser.parse_lines.
  destruct (Py.splitlines text) as [|l ls]; [done|].
  cbn [PasteParser.loop]. rewrite body_break; [done|].
  apply _isIgnoreAfterLine_spec. right. rewrite Ht. split; [done|apply contains_empty].
Qed.

Lemma lower_char_idempotent (c : ascii) :
  Py.lower_char (Py.lower_char c) = Py.lower_char c.
Proof. destruct c as [[] [] [] [] [] [] [] []]; reflexivity. Qed.

Lemma startswith_lower_is_lower (s x : string) :
  Py.startswith (Py.lower s) x = true -> Py.lower x = x.
Proof.
  revert s. induction x as [|a x IH]; intros s H; [done|].
  destruct s as [|c s]; [done|]. cbn [Py.lower] in H.
  apply startswith_cons in H as (t & E & H). injection E as <- <-.
  cbn [Py.lower]. by rewrite lower_char_idempotent, (IH s).
Qed.

(** X10.  The prefixes are compared as configured with the lower-cased
    line: an entry that is not in lower case matches no line, and when no
    entry is in lower case no line sets the soft-skip flag. *)
Theorem prefix_not_lower_never_matches (st : locals) (l : string) :
  Forall (fun x => Py.lower x <> x) (IGNORE_UNTIL_BLANK_LINE_PREFIXES cfg) ->
  skip_trigger cfg l = false /\ check_prefixes cfg st l = st.
Proof.
  intros Hall.
  assert (skip_trigger cfg l = false) as Hs.
  { unfold skip_trigger, starts_with_prefix.
    destruct (existsb _ _) eqn:E; [|by rewrite andb_false_r].
    apply existsb_exists in E as (x & Hin & Hx).
    apply startswith_lower_is_lower in Hx.
    rewrite Forall_forall in Hall. by destruct (Hall x (proj2 (list_elem_of_In _ _) Hin)). }
  split; [done|]. rewrite check_prefixes_spec, Hs, orb_false_r.
  apply with_ignore_next_lines_same.
Qed.

(** *** The loaded configuration *)

Lemma lstrip_cases (s : string) :
  Py.lstrip s = "" \/ exists c t, Py.lstrip s = String c t /\ Py.isspace c = false.
Proof.
  induction s as [|c t IH]; [by left|]. cbn [Py.lstrip].
  destruct (Py.isspace c) eqn:Hc; [done|]. right. eauto.
Qed.

Lemma rstrip_where_step (drop : ascii -> bool) (c : ascii) (t : string) :
  Py.rstrip_where drop (String c t)
  = match Py.rstrip_where drop t with
    | EmptyString => if drop c then EmptyString else String c EmptyString
    | r => String c r
    end.
Proof. reflexivity. Qed.

Lemma rstrip_where_idempotent (drop : ascii -> bool) (s : string) :
  Py.rstrip_where drop (Py.rstrip_where drop s) = Py.rstrip_where drop s.
Proof.
  induction s as [|c t IH]; [done|]. rewrite rstrip_where_step.
  destruct (Py.rstrip_where drop t) as [|x r] eqn:E.
  - destruct (drop c) eqn:Hc; [done|]. cbn. by rewrite Hc.
  - by rewrite rstrip_where_step, IH.
Qed.

Lemma strip_idempotent (s : string) : Py.strip (Py.strip s) = Py.strip s.
Proof.
  unfold Py.strip, Py.rstrip.
  destruct (lstrip_cases s) as [->|(c & t & -> & Hc)]; [done|].
  destruct (rstrip_where_cons Py.isspace c t Hc) as [r E]. rewrite E.
  cbn [Py.lstrip]. rewrite Hc, <- E. apply rstrip_where_idempotent.
Qed.

(** X11.  What [load_config] gives is stripped: the cutoff text, the mode
    and every prefix are free of surrounding white space, and the list of
    prefixes is never empty.  So in mode ["equals"] only a line that has
    no surrounding white space itself can trigger the cutoff. *)
Theorem loaded_config_is_stripped (env : environ) (c : config) :
  load_config env = Ok c ->
  Py.strip (IGNORE_AFTER_LINE c) = IGNORE_AFTER_LINE c
  /\ Py.strip (IGNORE_AFTER_LINE_METHOD c) = IGNORE_AFTER_LINE_METHOD c
  /\ Forall (fun x => Py.strip x = x) (IGNORE_UNTIL_BLANK_LINE_PREFIXES c)
  /\ IGNORE_UNTIL_BLANK_LINE_PREFIXES c <> []
  /\ (IGNORE_AFTER_LINE_METHOD c = "equals" ->
      forall l, _isIgnoreAfterLine c l = true -> Py.strip l = l).
Proof.
  unfold load_config, environ_get_strip. intros H.
  destruct (env_IGNORE_AFTER_LINE env) as [a|]; [|done].
  destruct (env_IGNORE_AFTER_LINE_METHOD env) as [m|]; [|done].
  cbn [bind] in H. injection H as <-. cbn [IGNORE_AFTER_LINE IGNORE_AFTER_LINE_METHOD
    IGNORE_UNTIL_BLANK_LINE_PREFIXES].
  split; [apply strip_idempotent|]. split; [apply strip_idempotent|].
  split; [|split].
  - apply Forall_forall. intros x Hx.
    apply list_elem_of_In in Hx. apply in_map_iff in Hx as (y & <- & _).
    apply strip_idempotent.
  - destruct (split_char_cons "," (Py.strip (getenv_default
               (env_IGNORE_UNTIL_BLANK_LINE_PREFIXES env)))) as (w & ws & ->). done.
  - intros Hm l Hl. unfold _isIgnoreAfterLine in Hl.
    cbn [IGNORE_AFTER_LINE IGNORE_AFTER_LINE_METHOD] in Hl. rewrite Hm in Hl.
    cbn in Hl. destruct (String.eqb_spec (Py.strip a) l) as [E|E]; [|done].
    rewrite <- E. apply strip_idempotent.
Qed.

(** *** Remarks in parentheses *)

Lemma split_char_head_free (x : ascii) (s w : string) (ws : list string) :
  Py.split_char x s = w :: ws -> Py.contains (String x "") w = false.
Proof.
  revert w ws. induction s as [|c t IH]; intros w ws; cbn [Py.split_char].
  - by intros [= <- <-].
  - destruct (Ascii.eqb_spec c x) as [->|Hc]; [by intros [= <- <-]|].
    destruct (Py.split_char x t) as [|w' ws'] eqn:E.
    + destruct (split_char_cons x t) as (? & ? & E'). congruence.
    + intros [= <- <-]. rewrite contains_char_cons, (IH w' ws') by done.
      rewrite orb_false_r. apply Ascii.eqb_neq. congruence.
Qed.

Lemma split_char_none (x : ascii) (s : string) :
  Py.contains (String x "") s = false -> Py.split_char x s = [s].
Proof.
  induction s as [|c t IH]; [done|]. rewrite contains_char_cons.
  intros H. apply orb_false_elim in H as [Hc Ht]. cbn [Py.split_char].
  rewrite (Ascii.eqb_sym c x), Hc, IH; done.
Qed.

Lemma lstrip_char_free (x : ascii) (s : string) :
  Py.contains (String x "") s = false -> Py.contains (String x "") (Py.lstrip s) = false.
Proof.
  induction s as [|c t IH]; [done|]. cbn [Py.lstrip].
  destruct (Py.isspace c); [|done]. rewrite contains_char_cons.
  intros H. apply orb_false_elim in H as [_ H]. by apply IH.
Qed.

Lemma rstrip_char_free (drop : ascii -> bool) (x : ascii) (s : string) :
  Py.contains (String x "") s = false ->
  Py.contains (String x "") (Py.rstrip_where drop s) = false.
Proof.
  induction s as [|c t IH]; [done|]. rewrite rstrip_where_step, contains_char_cons.
  intros H. apply orb_false_elim in H as [Hc Ht]. specialize (IH Ht).
  destruct (Py.rstrip_where drop t) as [|y r].
  - destruct (drop c); [done|]. by rewrite contains_char_cons, Hc.
  - by rewrite contains_char_cons, Hc, IH.
Qed.

Lemma strip_char_free (x : ascii) (s : string) :
  Py.contains (String x "") s = false -> Py.contains (String x "") (Py.strip s) = false.
Proof. intros H. by apply rstrip_char_free, lstrip_char_free. Qed.

Lemma split_char_1_after_free (x : ascii) (s key after : string) :
  Py.contains (String x "") s = false -> Py.split_char_1 ":" s = [key; after] ->
  Py.contains (String x "") after = false.
Proof.
  revert key. induction s as [|c t IH]; intros key; [done|].
  rewrite contains_char_cons. intros H. apply orb_false_elim in H as [_ Ht].
  cbn [Py.split_char_1]. destruct (Ascii.eqb c ":"); [by intros [= <- <-]|].
  destruct (Py.split_char_1 ":" t) as [|k [|a [|]]]; intros [=]; subst.
  by apply (IH k Ht).
Qed.

(** X12.  A Quick Summary audio line whose descriptor lacks the words
    ["ac3 embedded"] appends exactly one audio entry and cannot fail: the
    formatter is given the text after the first colon of the stripped
    part of the line that comes before its first opening parenthesis, so
    the name it is given has no opening parenthesis. *)
Theorem quick_summary_audio_drops_remark (st : locals) (l : string) :
  sect st = Some QUICK_SUMMARY ->
  Py.startswith (Py.lower (Py.strip l)) "audio:" = true ->
  exists key after,
    Py.split_char_1 ":" l = [key; after]
    /\ (Py.contains marker_test (Py.lower (Py.strip after)) = false ->
        exists cut cuts k name,
          Py.split_char "(" l = cut :: cuts
          /\ Py.split_char_1 ":" (Py.strip cut) = [k; name]
          /\ Py.contains "(" name = false
          /\ classify st l = Ok (append_audio (format_track_name name) st)).
Proof.
  intros Hs Ha.
  pose proof (key_line_colon l (or_intror (or_introl Ha))) as Hcolon.
  destruct (key_line_split l Hcolon) as (key & after & Hsp).
  exists key, after. split; [done|]. intros Hm.
  destruct (split_char_cons "(" l) as (cut & cuts & Hcut).
  pose proof (split_char_head_free _ _ _ _ Hcut) as Hfree.
  destruct (key_line_split_stripped cut (colon_before_paren_split l cut cuts Hcolon Hcut))
    as (k & name & Hname).
  exists cut, cuts, k, name. split; [done|]. split; [done|].
  split; [by apply (split_char_1_after_free "(" (Py.strip cut) k name
                      (strip_char_free "(" cut Hfree))|].
  destruct (audio_line_dispatch _ Ha) as [Hh Hv].
  unfold PasteParser.classify. rewrite update_section_not_header, Hs by done.
  unfold PasteParser.quick_summary_line. rewrite Hv, Ha, Hsp.
  cbn [subscript lookup list_lookup bind]. rewrite Hm.
  destruct (Py.contains "(" l) eqn:Hp.
  - rewrite Hcut. cbn [subscript lookup list_lookup bind]. by rewrite Hname.
  - rewrite (split_char_none "(" l Hp) in Hcut. injection Hcut as <- <-.
    cbn [bind]. by rewrite Hname.
Qed.

(** *** Blank lines *)

Lemma classify_keeps_flag (st st1 : locals) (l : string) :
  classify st l = Ok st1 -> ignore_next_lines st1 = ignore_next_lines st.
Proof. intros H. by apply classify_mediainfo in H as [? _]. Qed.

Lemma loop_without_blank_lines (ls : list string) :
  prefixes_enabled cfg = false ->
  Forall (fun l => Py.truthy (Py.strip l) = false -> _isIgnoreAfterLine cfg l = false) ls ->
  forall st, ignore_next_lines st = false ->
    loop st ls = loop st (List.filter (fun l => Py.truthy (Py.strip l)) ls).
Proof.
  intros Hp. induction 1 as [|l ls Hl _ IH]; intros st Hi; [done|].
  cbn [List.filter]. destruct (Py.truthy (Py.strip l)) eqn:Hb.
  - cbn [PasteParser.loop].
    destruct (body st l) as [[st1|]|] eqn:Hbody; [|done|done].
    apply IH. apply body_next in Hbody as [_ [(? & _)|[(_ & ? & _)|(_ & _ & Hc)]]];
      [congruence|congruence|].
    apply classify_keeps_flag in Hc. rewrite Hc. project.
    unfold skip_trigger. by rewrite Hp.
  - cbn [PasteParser.loop]. rewrite body_blank by auto.
    rewrite <- Hi, with_ignore_next_lines_same. by apply IH.
Qed.

(** X15.  With the soft skip disabled a blank line has no effect at all:
    unless the cutoff test holds of a blank line of the input, [parse]
    gives on the lines what it gives on the lines that are not blank, be
    it a result or an exception.  A blank line ends no section and no
    block. *)
Theorem blank_lines_are_inert (lines : list string) :
  prefixes_enabled cfg = false ->
  Forall (fun l => Py.truthy (Py.strip l) = false -> _isIgnoreAfterLine cfg l = false)
         lines ->
  parse_lines lines = parse_lines (List.filter (fun l => Py.truthy (Py.strip l)) lines).
Proof.
  intros Hp Hall. unfold PasteParser.parse_lines.
  by rewrite (loop_without_blank_lines lines Hp Hall initial eq_refl).
Qed.

(** *** The raw blocks parsed again *)

Lemma update_section_block (st : locals) (l2 : string) :
  mediainfo (update_section st l2) = mediainfo st
  /\ ((Py.startswith l2 "general" = true /\ did_first_mediainfo st = false
       /\ sect (update_section st l2) = Some MEDIAINFO
       /\ did_first_mediainfo (update_section st l2) = true)
      \/ (is_header l2 = false /\ update_section st l2 = st)
      \/ (sect (update_section st l2) <> Some MEDIAINFO
          /\ did_first_mediainfo (update_section st l2) = did_first_mediainfo st)).
Proof.
  destruct (is_header l2) eqn:Hh.
  - destruct st. unfold is_header, update_section in *. by_cases; auto 10.
  - rewrite update_section_not_header by done. auto.
Qed.

Lemma classify_mediainfo_inv (st st1 : locals) (l : string) :
  classify st l = Ok st1 -> reaches cfg l -> mediainfo_inv cfg st -> mediainfo_inv cfg st1.
Proof.
  unfold PasteParser.classify. intros Hc Hr (Hblk & Hdid & Hsect).
  destruct (update_section_block st (Py.lower (Py.strip l))) as [Em Hcase].
  set (st0 := update_section st _) in *. clearbody st0.
  assert (sect st0 <> Some MEDIAINFO ->
          mediainfo st0 = mediainfo st ->
          (did_first_mediainfo st0 = false -> mediainfo st = []) ->
          mediainfo st1 = mediainfo st0 -> did_first_mediainfo st1 = did_first_mediainfo st0 ->
          sect st1 <> Some MEDIAINFO -> mediainfo_inv cfg st1) as Hother.
  { intros _ E0 Hd0 E1 Ed Hs1. unfold mediainfo_inv. rewrite E1, E0, Ed. done. }
  destruct (sect st0) as [[]|] eqn:Hs0.
  - apply quick_summary_line_frame in Hc as (b & -> & _).
    destruct Hcase as [(_ & _ & ? & _)|[(_ & ->)|(_ & Ed)]]; [done|..];
      apply Hother; project; rewrite ?Hs0, ?Ed; done.
  - injection Hc as <-. clear Hother. unfold mediainfo_inv, append_mediainfo. project.
    destruct Hcase as [(Hg & Hd & _ & Hd0)|[(Hh & ->)|(? & _)]]; [| |done].
    + rewrite Em, (Hdid Hd). cbn [app]. split; [|split].
      * split; [split; [done|constructor]|]. constructor; [exact Hr|constructor].
      * intros H. rewrite Hd0 in H. discriminate.
      * done.
    + destruct (mediainfo st) as [|h rest] eqn:E; [by destruct (Hsect Hs0)|].
      destruct Hblk as [[Hg Hrest] Hall]. cbn [app]. split; [|split].
      * split; [split; [done|]|].
        -- apply Forall_app. split; [done|by repeat constructor].
        -- rewrite app_comm_cons. apply Forall_app. split; [done|].
           constructor; [exact Hr|constructor].
      * intros Hd. by specialize (Hdid Hd).
      * done.
  - apply playlist_report_line_frame in Hc as (b & s2 & s3 & -> & _).
    destruct Hcase as [(_ & _ & ? & _)|[(_ & ->)|(_ & Ed)]]; [done|..];
      apply Hother; project; rewrite ?Hs0, ?Ed; done.
  - apply eac3to_line_frame in Hc as [->|[e ->]];
      (destruct Hcase as [(_ & _ & ? & _)|[(_ & ->)|(_ & Ed)]]; [done|..]);
      apply Hother; project; rewrite ?Hs0, ?Ed; done.
  - simplify_eq.
    destruct Hcase as [(_ & _ & ? & _)|[(_ & ->)|(_ & Ed)]]; [done|..];
      apply Hother; project; rewrite ?Hs0, ?Ed; done.
Qed.

Lemma classify_log_block (st st1 : locals) (l : string) :
  classify st l = Ok st1 -> reaches cfg l -> log_inv st ->
  Forall (log_block cfg) (eac3to st) -> Forall (log_block cfg) (eac3to st1).
Proof.
  intros Hc Hr Hinv Hall.
  destruct (Py.startswith (Py.lower (Py.strip l)) "eac3to v") eqn:He.
  { rewrite classify_eac3to_header in Hc by (done || apply Hinv). simplify_eq. project.
    apply Forall_app. split; [done|]. constructor; [|constructor].
    split; [split; [done|constructor]|]. constructor; [exact Hr|constructor]. }
  destruct (is_header (Py.lower (Py.strip l))) eqn:Hh.
  { apply classify_other_header in Hc as [-> _]; done. }
  revert Hc. unfold PasteParser.classify. rewrite update_section_not_header by done.
  intros Hc. destruct (sect st) as [[]|] eqn:Hs.
  - by apply quick_summary_line_frame in Hc as (b & -> & _).
  - by simplify_eq.
  - by apply playlist_report_line_frame in Hc as (b & s2 & s3 & -> & _).
  - apply eac3to_line_cases in Hc as [(_ & ->)|(Hd & logs & log & E & ->)];
      [done| |done|done].
    project. rewrite E in Hall. apply Forall_app in Hall as [Hlogs Hlog].
    apply Forall_app. split; [done|]. constructor; [|constructor].
    apply Forall_inv in Hlog. destruct log as [|h rest]; [by destruct Hlog|].
    destruct Hlog as [[Hhd Hrest] Hreach]. cbn [app]. split; [split; [done|]|].
    + apply Forall_app. split; [done|]. by repeat constructor.
    + rewrite app_comm_cons. apply Forall_app. split; [done|].
      constructor; [exact Hr|constructor].
  - by simplify_eq.
Qed.

Lemma loop_blocks (ls : list string) :
  forall st st',
    log_inv st -> mediainfo_inv cfg st -> Forall (log_block cfg) (eac3to st) ->
    loop st ls = Ok st' ->
    mediainfo_inv cfg st' /\ Forall (log_block cfg) (eac3to st').
Proof.
  induction ls as [|l ls IH]; intros st st' Hinv Hm Hall H.
  - cbn in H. by simplify_eq.
  - loop_step H st1 Hb; [|by simplify_eq].
    apply body_next in Hb as [Hcut [(_ & ->)|[(_ & _ & ->)|(Hnb & _ & Hc)]]].
    + by apply IH in H.
    + by apply IH in H.
    + apply (IH st1); [| | |done].
      * by apply (classify_log_inv _ _ _ Hc).
      * by apply (classify_mediainfo_inv _ _ _ Hc).
      * by apply (classify_log_block _ _ _ Hc).
Qed.

Lemma loop_in_block (rest : list string) :
  Forall (fun l => passes cfg l /\ is_header (Py.lower (Py.strip l)) = false) rest ->
  forall st, ignore_next_lines st = false -> sect st = Some MEDIAINFO ->
    loop st rest = Ok (with_mediainfo (mediainfo st ++ rest) st).
Proof.
  induction 1 as [|l rest [Hp Hh] _ IH]; intros st Hi Hs.
  - cbn. rewrite app_nil_r. by destruct st.
  - cbn [PasteParser.loop]. rewrite body_passes by done.
    unfold PasteParser.classify. rewrite update_section_not_header, Hs by done.
    cbn [bind]. rewrite IH by done. unfold append_mediainfo. project.
    rewrite <- app_assoc. by destruct st.
Qed.

Lemma Forall_of_concat {A} (P : A -> Prop) (ls : list (list A)) :
  Forall P (concat ls) -> Forall (Forall P) ls.
Proof.
  induction ls as [|x ls IH]; cbn [concat]; [constructor|].
  intros H. apply Forall_app in H as [? ?]. constructor; auto.
Qed.

Lemma mediainfo_block_parses (m : list string) :
  mediainfo_block cfg m -> Forall (fun l => skip_trigger cfg l = false) m ->
  parse_lines m = Ok (bdinfo initial, m, []).
Proof.
  destruct m as [|h rest]; [done|]. intros [[Hg Hrest] Hreach] Hskip.
  apply Forall_cons in Hreach as [[Hc Hb] Hreach].
  apply Forall_cons in Hskip as [Hs Hskip].
  unfold PasteParser.parse_lines. cbn [PasteParser.loop].
  rewrite body_passes by done. unfold PasteParser.classify.
  rewrite update_section_general by done. cbn.
  rewrite loop_in_block; [done| |done|done].
  apply Forall_forall. intros l Hl. rewrite Forall_forall in Hrest, Hreach, Hskip.
  destruct (Hreach l Hl). repeat split; auto.
Qed.

Lemma log_block_parses (log : list string) :
  log_block cfg log -> Forall (fun l => skip_trigger cfg l = false) log ->
  parse_lines log = Ok (bdinfo initial, [], [log]).
Proof.
  destruct log as [|h rest]; [by intros []|]. intros [[Hh Hrest] Hreach] Hskip.
  apply Forall_cons in Hreach as [[Hc Hb] Hreach].
  apply Forall_cons in Hskip as [Hs Hskip].
  unfold PasteParser.parse_lines. cbn [PasteParser.loop].
  rewrite body_passes by done.
  rewrite classify_eac3to_header by (done || apply log_inv_initial). cbn [bind].
  rewrite <- (app_nil_r rest) at 1.
  rewrite (loop_interior rest []) with (logs := []) (log := [h]); [done| |done|done|done|done].
  apply Forall_forall. intros l Hl. rewrite Forall_forall in Hrest, Hreach, Hskip.
  destruct (Hreach l Hl), (Hrest l Hl). repeat split; auto.
Qed.

(** X16.  What [parse] returns as raw text is read back as it is: on the
    returned [mediainfo] alone [parse] returns that [mediainfo] with no
    track and no log, and on each returned log alone it returns that one
    log, provided no line of them triggers the soft skip (as when the
    prefixes are disabled).  The configuration is that of the first
    parse. *)
Theorem raw_blocks_parse_to_themselves (lines : list string) (b : bdinfo_dict)
        (m : list string) (e : list (list string)) :
  parse_lines lines = Ok (b, m, e) ->
  Forall (fun l => skip_trigger cfg l = false) (m ++ concat e) ->
  parse_lines m = Ok (bdinfo initial, m, [])
  /\ Forall (fun log => parse_lines log = Ok (bdinfo initial, [], [log])) e.
Proof.
  intros H Hskip. unfold PasteParser.parse_lines in H.
  destruct (loop initial lines) as [st'|] eqn:Hl; cbn in H; [|discriminate].
  unfold returned in H. simplify_eq.
  apply Forall_app in Hskip as [Hsm Hse]. apply Forall_of_concat in Hse.
  apply loop_blocks in Hl as [(Hblk & _) Hlogs];
    [|apply log_inv_initial|by repeat split|constructor].
  split; [by apply mediainfo_block_parses|].
  apply Forall_forall. intros log Hlog. rewrite Forall_forall in Hse, Hlogs.
  apply log_block_parses; auto.
Qed.

(** *** The compatibility track of a playlist row *)

Lemma playlist_heading_sect3 (st : locals) (l2 : string) :
  sect3 (playlist_heading st l2) = sect3 st.
Proof. unfold playlist_heading. by repeat case_match. Qed.

Lemma join_drop_last_single (post : string) :
  Py.contains "/" post = false ->
  Py.join "/" (Py.drop_last (Py.split_char "/" post)) = "".
Proof. intros H. by rewrite (split_char_none "/" post H). Qed.

(** X17.  A row of the audio table of a playlist report that has
    ["(ac3 embedded:"] in some letter case appends the entry of the row,
    when the formatter gives one, and then one compatibility entry: the
    fixed prefix followed by the text [post] without its last field, the
    fields being separated by ["/"], stripped of white space and then of
    every closing parenthesis at its end.  [post] is the text between the
    first occurrence of the marker and the next one; it runs to the end
    of the row only when no occurrence follows the first.  When [post] has
    no ["/"] the compatibility entry is the bare prefix. *)
Theorem playlist_compatibility_track (st : locals) (l : string) :
  let st0 := playlist_heading st (Py.lower (Py.strip l)) in
  let row :=
    if Py.truthy (playlist_report_format_audio_track_name l)
    then append_audio (playlist_report_format_audio_track_name l) st0 else st0 in
  sect st = Some PLAYLIST_REPORT ->
  is_header (Py.lower (Py.strip l)) = false ->
  sect2 st0 = Some PLAYLIST_AUDIO -> sect3 st = Some PLAYLIST_INNER_AUDIO ->
  Py.startswith (Py.lower (Py.strip l)) "-----" = false ->
  Py.startswith l "-" = false ->
  Py.contains marker_pattern (Py.lower l) = true ->
  exists pre m rest post,
    first_marker l pre m rest
    /\ ((Py.contains marker_pattern (Py.lower rest) = false /\ post = rest)
        \/ exists m' rest', first_marker rest post m' rest')
    /\ classify st l
       = Ok (append_audio
               (format_track_name
                  (compat_prefix
                   +:+ Py.rstrip_paren
                         (Py.strip (Py.join "/" (Py.drop_last (Py.split_char "/" post))))))
               row)
    /\ (Py.contains "/" post = false ->
        classify st l = Ok (append_audio (format_track_name compat_prefix) row)).
Proof.
  intros st0 row Hs Hh H2 H3 Hsep Hdash Hm.
  destruct (re_split_from_two "(" "ac3 embedded:" "" l Hm) as (p0 & p1 & more & Hr).
  destruct (re_split_marker_first _ _ _ _ Hr) as (m & rest & Hfirst & Hrest).
  exists p0, m, rest, p1. split; [done|].
  split; [by apply (re_split_marker_next rest p1 more)|].
  assert (classify st l
          = Ok (append_audio
                  (format_track_name
                     (compat_prefix
                      +:+ Py.rstrip_paren
                            (Py.strip (Py.join "/" (Py.drop_last (Py.split_char "/" p1))))))
                  row)) as Hc.
  { unfold PasteParser.classify. rewrite update_section_not_header, Hs by done.
    unfold PasteParser.playlist_report_line. fold st0. rewrite Hsep, Hdash, H2.
    unfold st0 at 1. rewrite playlist_heading_sect3, H3. fold st0. fold row.
    unfold PasteParser.playlist_compat_track.
    rewrite contains_marker_test by done.
    unfold re_split_marker, marker_pattern. rewrite Hr. reflexivity. }
  split; [done|]. intros Hno. rewrite Hc.
  by rewrite (join_drop_last_single p1 Hno).
Qed.

End ParseFacts.

(** ** The statements at concrete inputs *)

(** With the cutoff text ["END"] in mode ["contains"], the line
    ["the END"] and the lines after it add nothing. *)
Lemma hard_cutoff_truncates_witness :
  Py.contains "END" "the END" = true
  /\ parse_lines_id cutoff_config (["General"; "a"] ++ "the END" :: ["b"; "c"])
     = parse_lines_id cutoff_config ["General"; "a"]
  /\ parse_lines_id cutoff_config ["General"; "a"]
     = Ok (bdinfo initial, ["General"; "a"], []).
Proof.
  split; [reflexivity|]. split; [|reflexivity].
  apply (hard_cutoff_truncates id id id id cutoff_config ["General"; "a"] ["b"; "c"] "the END").
  right. split; reflexivity.
Defined.

(** With the skip prefix ["screens"]: the line ["Screens:"] is appended to
    the open MediaInfo block and sets the flag; met with the flag set,
    ["a"] and ["General"] are dropped, the blank line clears the flag, and
    the next ["General"] opens the block. *)
Lemma soft_skip_until_blank_line_witness :
  prefixes_enabled skip_config = true
  /\ PasteParser.body id id id id skip_config (with_sect (Some MEDIAINFO) initial) "Screens:"
     = Ok (Next (with_ignore_next_lines true
                   (append_mediainfo "Screens:" (with_sect (Some MEDIAINFO) initial))))
  /\ PasteParser.loop id id id id skip_config
       (with_ignore_next_lines true initial) (["a"; "General"] ++ " " :: ["General"; "x"])
     = Ok (with_did_first_mediainfo true
             (with_sect (Some MEDIAINFO) (with_mediainfo ["General"; "x"] initial))).
Proof.
  split; [reflexivity|].
  pose proof (soft_skip_until_blank_line id id id id skip_config eq_refl)
    as (Hset & _ & _ & Hresume).
  split.
  - rewrite Hset; [reflexivity..|]. exists "screens". split; [left|]; reflexivity.
  - rewrite Hresume; [reflexivity..| |reflexivity|reflexivity].
    repeat constructor.
Defined.



(** A playlist report with a subtitles table and a row in it returns an
    empty subtitle list. *)
Lemma subtitles_only_from_quick_summary_witness :
  parse_lines_id blank_config
    ["PLAYLIST REPORT:"; "SUBTITLES:"; "Codec  Language"; "-----  --------";
     "Presentation Graphics  English"]
  = Ok ({| video := []; audio := []; subtitle := []; type_ := Some BD_PLAYLIST_REPORT |},
        [], [])
  /\ subtitle {| video := []; audio := []; subtitle := [];
                 type_ := Some BD_PLAYLIST_REPORT |} = [].
Proof.
  split; [reflexivity|].
  apply (proj2 (proj2 (subtitles_only_from_quick_summary id id id id blank_config)))
    with (lines := ["PLAYLIST REPORT:"; "SUBTITLES:"; "Codec  Language";
                    "-----  --------"; "Presentation Graphics  English"])
         (m := []) (e := []).
  - repeat constructor.
  - reflexivity.
Defined.


(** A line of a Quick Summary with the marker in capitals, and a line
    with two markers: the compatibility entry of the second line is made
    of the text between them. *)
Lemma compatibility_track_split_witness :
  (exists pre m rest post,
      first_marker
        (Py.strip " English / Dolby TrueHD Audio / 7.1 (AC3 Embedded: 5.1 / 640 kbps)")
        pre m rest
      /\ ((Py.contains marker_pattern (Py.lower rest) = false /\ post = rest)
          \/ exists m' rest', first_marker rest post m' rest')
      /\ PasteParser.classify id id id id (with_sect (Some QUICK_SUMMARY) initial)
           "Audio: English / Dolby TrueHD Audio / 7.1 (AC3 Embedded: 5.1 / 640 kbps)"
         = Ok (append_audio
                 (id (compat_prefix +:+ Py.rstrip_paren (Py.strip post)))
                 (append_audio (id pre) (with_sect (Some QUICK_SUMMARY) initial))))
  /\ PasteParser.classify id id id id (with_sect (Some QUICK_SUMMARY) initial)
       "Audio: DTS (ac3 embedded: A) (AC3 Embedded: B)"
     = Ok (append_audio "Compatibility Track / Dolby Digital Audio / A"
             (append_audio "DTS " (with_sect (Some QUICK_SUMMARY) initial)))
  /\ exists pre m rest post,
      first_marker (Py.strip " DTS (ac3 embedded: A) (AC3 Embedded: B)") pre m rest
      /\ ((Py.contains marker_pattern (Py.lower rest) = false /\ post = rest)
          \/ exists m' rest', first_marker rest post m' rest')
      /\ PasteParser.classify id id id id (with_sect (Some QUICK_SUMMARY) initial)
           "Audio: DTS (ac3 embedded: A) (AC3 Embedded: B)"
         = Ok (append_audio
                 (id (compat_prefix +:+ Py.rstrip_paren (Py.strip post)))
                 (append_audio (id pre) (with_sect (Some QUICK_SUMMARY) initial))).
Proof.
  split; [|split; [reflexivity|]].
  - destruct (proj1 (compatibility_track_split id id id id)
                (with_sect (Some QUICK_SUMMARY) initial)
                "Audio: English / Dolby TrueHD Audio / 7.1 (AC3 Embedded: 5.1 / 640 kbps)"
                eq_refl eq_refl) as (key & after & Hsp & _ & Himp).
    vm_compute in Hsp. injection Hsp as <- <-. apply Himp. reflexivity.
  - destruct (proj1 (compatibility_track_split id id id id)
                (with_sect (Some QUICK_SUMMARY) initial)
                "Audio: DTS (ac3 embedded: A) (AC3 Embedded: B)"
                eq_refl eq_refl) as (key & after & Hsp & _ & Himp).
    vm_compute in Hsp. injection Hsp as <- <-. apply Himp. reflexivity.
Defined.

(** On the line of the example, with formatters that return their
    argument, the second audio entry keeps the field
    ["Dolby Digital Audio 2.0"] and so does not begin with
    ["Compatibility Track / Dolby Digital Audio / 48 kHz / 192 kbps"]. *)
Lemma compat_entry_keeps_first_field :
  parse_id blank_config
    (text_of
       ["Quick Summary";
        "Audio: DTS-HD Master Audio 5.1 (ac3 embedded: Dolby Digital Audio 2.0 / 48 kHz / 192 kbps)"])
  = Ok ({| video := [];
           audio :=
             ["DTS-HD Master Audio 5.1 ";
              "Compatibility Track / Dolby Digital Audio / Dolby Digital Audio 2.0 / 48 kHz / 192 kbps"];
           subtitle := [];
           type_ := Some BD_QUICK_SUMMARY |}, [], [])
  /\ Py.startswith
       "Compatibility Track / Dolby Digital Audio / Dolby Digital Audio 2.0 / 48 kHz / 192 kbps"
       "Compatibility Track / Dolby Digital Audio / 48 kHz / 192 kbps" = false.
Proof. split; reflexivity. Qed.



(** The prefix list [[""; "foo"]] is not empty and holds ["foo"], yet the
    guard of lines 80-83 is false for it: the line ["foo"] sets no soft
    skip, and the line ["bar"] after it is kept. *)
Lemma skip_disabled_by_empty_first_prefix :
  load_config comma_environ = Ok comma_config
  /\ Py.startswith (Py.lower (Py.strip "foo")) "foo" = true
  /\ PasteParser.body id id id id comma_config (with_sect (Some MEDIAINFO) initial) "foo"
     = Ok (Next (append_mediainfo "foo" (with_sect (Some MEDIAINFO) initial)))
  /\ parse_id comma_config (text_of ["General"; "foo"; "bar"])
     = Ok (bdinfo initial, ["General"; "foo"; "bar"], []).
Proof. repeat split; reflexivity. Qed.

(** ** Where the code fails *)

(** C1.  [parse] raises [IndexError] on a Quick Summary audio line that
    has ["ac3 embedded"] without the parenthesis and the colon of
    ["(ac3 embedded:"]: the test of line 118 passes, [re.split] of line
    119 returns one piece, and [audio_parts[1]] does not exist. *)
Theorem parse_raises_on_marker_without_pattern
    (format_track_name format_video_track_name
     playlist_report_format_video_track_name
     playlist_report_format_audio_track_name : string -> string) :
  PasteParser.parse format_track_name format_video_track_name
    playlist_report_format_video_track_name playlist_report_format_audio_track_name
    blank_config (text_of ["Quick Summary"; "Audio: DTS ac3 embedded"])
  = Raise IndexError.
Proof. reflexivity. Qed.

(** The same in a playlist report (lines 188-194). *)
Lemma parse_raises_in_playlist_report
    (format_track_name format_video_track_name
     playlist_report_format_video_track_name
     playlist_report_format_audio_track_name : string -> string) :
  PasteParser.parse format_track_name format_video_track_name
    playlist_report_format_video_track_name playlist_report_format_audio_track_name
    blank_config
    (text_of ["PLAYLIST REPORT:"; "AUDIO:"; "-----"; "DTS Audio  English  ac3 embedded"])
  = Raise IndexError.
Proof. reflexivity. Qed.

(** C4.  With none of the three variables set, the assignment of line 9
    raises [AttributeError] when the module is imported: no configuration
    is loaded and no line is ever evaluated. *)
Theorem load_config_raises_when_unset :
  load_config unset_environ = Raise AttributeError.
Proof. reflexivity. Qed.

(** Line 13 has a default: with the first two variables set to the empty
    string and the third unset or empty, the configuration loads, and
    neither mechanism triggers on any line. *)
Lemma blank_config_never_triggers (l : string) (st : locals) :
  load_config (mk_environ (Some "") (Some "") None) = Ok blank_config
  /\ load_config blank_environ = Ok blank_config
  /\ _isIgnoreAfterLine blank_config l = false
  /\ check_prefixes blank_config st l = st.
Proof. repeat split. Qed.

(** ** More on the codec tables *)

Section CodecCategories.
Import CodecsParser.

Ltac table_keys H :=
  unfold __init__ in H;
  cbn [video_codecs audio_codecs sub_codecs chapter_codecs audio_codec_title_names
       list_to_map foldr uncurry] in H;
  repeat (apply lookup_insert_Some in H as [[<- <-]|[_ H]]);
  try (rewrite lookup_empty in H; discriminate H).

Lemma dict_has_spec (d : gmap string string) (codec : string) :
  dict_has d codec = true <-> exists v, d !! codec = Some v.
Proof. unfold dict_has. rewrite bool_decide_eq_true. reflexivity. Qed.

Lemma dict_has_false (d : gmap string string) (codec : string) :
  dict_has d codec = false <-> d !! codec = None.
Proof.
  unfold dict_has. rewrite bool_decide_eq_false, <- eq_None_not_Some. reflexivity.
Qed.

Lemma guarded_lookup_PyStr (d : gmap string string) (codec ext : string) :
  guarded_lookup d codec = Ok (PyStr ext) <-> d !! codec = Some ext.
Proof.
  split; [|apply guarded_lookup_Some].
  unfold guarded_lookup, dict_subscript. destruct (dict_has d codec); cbn [negb]; [|done].
  destruct (d !! codec); [|done]. by intros [= ->].
Qed.

Lemma guarded_lookup_PyFalse (d : gmap string string) (codec : string) :
  guarded_lookup d codec = Ok PyFalse <-> d !! codec = None.
Proof.
  split; [|apply guarded_lookup_None].
  unfold guarded_lookup, dict_subscript. destruct (dict_has d codec) eqn:H; cbn [negb].
  - apply dict_has_spec in H as [v ->]. done.
  - intros _. by apply dict_has_false.
Qed.

Lemma is_category_spec (codec : string) :
  (is_video __init__ codec = true <-> exists v, video_codecs __init__ !! codec = Some v)
  /\ (is_audio __init__ codec = true <-> exists v, audio_codecs __init__ !! codec = Some v)
  /\ (is_sub __init__ codec = true <-> exists v, sub_codecs __init__ !! codec = Some v)
  /\ (is_chapter __init__ codec = true
      <-> exists v, chapter_codecs __init__ !! codec = Some v).
Proof.
  assert (forall b : bool, (if b then true else false) = b) as E by (by intros []).
  unfold is_video, is_audio, is_sub, is_chapter. rewrite !E.
  split; [|split; [|split]]; apply dict_has_spec.
Qed.

(** The pairs of the merged table, one by one. *)
Lemma codec_ext_pairs (codec ext : string) :
  codec_ext __init__ !! codec = Some ext ->
  In (codec, ext)
     [ ("Chapters", ".txt"); ("Subtitle (PGS)", ".sup"); ("Subtitle (DVD)", ".sup");
       ("AC3", ".ac3"); ("DTS Master Audio", ".dtsma"); ("DTS", ".dts");
       ("E-AC3", "eac3"); ("FLAC Audio", ".flac"); ("RAW/PCM", ".pcm");
       ("TrueHD/AC3", ".thd+ac3"); ("h264/AVC", ".h264"); ("h265/HEVC", ".h265");
       ("MPEG1", ".m1v"); ("MPEG2", ".m2v"); ("VC-1", ".vc1") ].
Proof.
  rewrite codec_ext_lookup. intros H.
  destruct (chapter_codecs __init__ !! codec) eqn:Hc.
  { simplify_eq. table_keys Hc. cbn. tauto. }
  destruct (sub_codecs __init__ !! codec) eqn:Hs.
  { simplify_eq. table_keys Hs; cbn; tauto. }
  destruct (audio_codecs __init__ !! codec) eqn:Ha.
  { simplify_eq. table_keys Ha; cbn; tauto. }
  table_keys H; cbn; tauto.
Qed.

Ltac each_pair H :=
  apply codec_ext_pairs in H; cbn [In] in H;
  repeat (destruct H as [H|H]; [injection H as <- <-|]); [..|destruct H].

(** X1.  No codec name is in two categories: of [is_video], [is_audio],
    [is_sub] and [is_chapter] at most one returns [True]. *)
Theorem codec_categories_exclusive (codec : string) :
  let self := __init__ in
  (is_video self codec = true ->
   is_audio self codec = false /\ is_sub self codec = false
   /\ is_chapter self codec = false)
  /\ (is_audio self codec = true ->
      is_sub self codec = false /\ is_chapter self codec = false)
  /\ (is_sub self codec = true -> is_chapter self codec = false).
Proof.
  intros self. destruct (is_category_spec codec) as (Hv & Ha & Hs & _).
  split; [|split].
  - intros H. apply Hv in H as [v H]. table_keys H; by vm_compute.
  - intros H. apply Ha in H as [v H]. table_keys H; by vm_compute.
  - intros H. apply Hs in H as [v H]. table_keys H; by vm_compute.
Qed.

(** X2.  [get_codec_ext] returns [False] exactly for the names that none
    of the four category tests accepts: the merged table has the keys of
    the four tables and no other. *)
Theorem codec_ext_false_iff_unclassified (codec : string) :
  let self := __init__ in
  fst (get_codec_ext self codec) = Ok PyFalse
  <-> is_video self codec = false /\ is_audio self codec = false
      /\ is_sub self codec = false /\ is_chapter self codec = false.
Proof.
  intros self. unfold get_codec_ext, is_video, is_audio, is_sub, is_chapter. cbn [fst].
  rewrite guarded_lookup_PyFalse. unfold self. rewrite codec_ext_lookup.
  destruct (dict_has (video_codecs __init__) codec) eqn:Hv;
    destruct (dict_has (audio_codecs __init__) codec) eqn:Ha;
    destruct (dict_has (sub_codecs __init__) codec) eqn:Hs;
    destruct (dict_has (chapter_codecs __init__) codec) eqn:Hc;
    repeat match goal with
      | H : dict_has _ _ = true |- _ => apply dict_has_spec in H as [? ->]
      | H : dict_has _ _ = false |- _ => apply dict_has_false in H as ->
      end; split; try done; intros (? & ? & ? & ?); done.
Qed.

(** X3.  Every extension that [get_codec_ext] returns begins with a dot,
    but for the one of ['E-AC3'], which is recorded as ['eac3']. *)
Theorem codec_ext_dot_but_eac3 (codec ext : string) :
  fst (get_codec_ext __init__ codec) = Ok (PyStr ext) ->
  (Py.startswith ext "." = true <-> codec <> "E-AC3").
Proof.
  unfold get_codec_ext. cbn [fst]. rewrite guarded_lookup_PyStr. intros H.
  each_pair H; split; try done; by vm_compute.
Qed.

(** X4.  The extension tells the codec, but for the two subtitle codecs,
    which share ['.sup']. *)
Theorem codec_ext_tells_codec (c1 c2 ext : string) :
  fst (get_codec_ext __init__ c1) = Ok (PyStr ext) ->
  fst (get_codec_ext __init__ c2) = Ok (PyStr ext) ->
  c1 = c2 \/ (is_sub __init__ c1 = true /\ is_sub __init__ c2 = true).
Proof.
  unfold get_codec_ext. cbn [fst]. rewrite !guarded_lookup_PyStr. intros H1 H2.
  apply codec_ext_pairs in H1. apply codec_ext_pairs in H2. cbn [In] in H1, H2.
  repeat (destruct H1 as [H1|H1]; [injection H1 as <- <-|]); [..|destruct H1];
    repeat (destruct H2 as [H2|H2]; [try discriminate H2; injection H2 as <-|]);
    try (destruct H2); try (by left); right; by vm_compute.
Qed.

(** X5.  The short names of the title-name table are pairwise distinct,
    and the only name that has both a short name and an extension is
    ['FLAC Audio']: the other audio names of the two tables differ. *)
Theorem title_names_distinct (c1 c2 name : string) :
  (fst (get_audio_codec_title_name __init__ c1) = Ok (PyStr name) ->
   fst (get_audio_codec_title_name __init__ c2) = Ok (PyStr name) -> c1 = c2)
  /\ (fst (get_audio_codec_title_name __init__ c1) = Ok (PyStr name) ->
      fst (get_codec_ext __init__ c1) <> Ok PyFalse -> c1 = "FLAC Audio").
Proof.
  unfold get_audio_codec_title_name, get_codec_ext. cbn [fst].
  rewrite !guarded_lookup_PyStr. split.
  - intros H1 H2. table_keys H1;
      unfold __init__ in H2;
      cbn [audio_codec_title_names list_to_map foldr uncurry fst snd] in H2 |- *;
      repeat (apply lookup_insert_Some in H2 as [[<- E]|[_ H2]];
              [first [discriminate E | reflexivity]|]);
      by rewrite lookup_empty in H2.
  - intros H1 H2. table_keys H1; try done; exfalso; apply H2; by vm_compute.
Qed.

End CodecCategories.

(** ** The reply of the HTTP endpoint *)

Lemma startswith_split (s p : string) :
  Py.startswith s p = true -> exists rest, s = p +:+ rest.
Proof.
  revert s. induction p as [|a p IH]; intros s H; [by exists s|].
  apply startswith_cons in H as (t & -> & H). apply IH in H as [rest ->].
  by exists rest.
Qed.

Lemma replace_from_skip (old new m rest : string) :
  Py.replace_from old new (String.length m) (m +:+ rest)
  = Py.replace_from old new 0 rest.
Proof. induction m as [|c m IH]; [done|]. rewrite string_app_cons. cbn. apply IH. Qed.

(** The two equations of [replace]: at a match, and elsewhere. *)
Lemma replace_match (a : ascii) (old new rest : string) :
  Py.replace (String a old) new (String a old +:+ rest)
  = new +:+ Py.replace (String a old) new rest.
Proof.
  unfold Py.replace. rewrite string_app_cons. cbn [Py.replace_from].
  assert (Py.startswith (String a (old +:+ rest)) (String a old) = true) as ->.
  { cbn. rewrite Ascii.eqb_refl. clear. revert rest.
    induction old as [|b old IH]; intros rest; [done|].
    rewrite string_app_cons. cbn. by rewrite Ascii.eqb_refl. }
  cbn [String.length]. rewrite Nat.sub_succ, Nat.sub_0_r. by rewrite replace_from_skip.
Qed.

Lemma replace_no_match (old new : string) (c : ascii) (t : string) :
  Py.startswith (String c t) old = false ->
  Py.replace old new (String c t) = String c (Py.replace old new t).
Proof. unfold Py.replace. cbn [Py.replace_from]. by intros ->. Qed.

Lemma startswith_tick_cons (a : ascii) (s p : string) :
  Py.startswith (String a s) (String "`" p)
  = if Ascii.eqb a "`" then Py.startswith s p else false.
Proof. cbn [Py.startswith]. by rewrite (Ascii.eqb_sym "`" a). Qed.

Lemma startswith_ticks (s : string) :
  Py.startswith s "```" = true <-> 3 <= Py.leading_ticks s.
Proof.
  destruct s as [|a s]; [cbn; split; [done|lia]|].
  rewrite startswith_tick_cons. cbn [Py.leading_ticks].
  destruct (Ascii.eqb a "`"); [|split; [done|lia]].
  destruct s as [|b s]; [cbn; split; [done|lia]|].
  rewrite startswith_tick_cons. cbn [Py.leading_ticks].
  destruct (Ascii.eqb b "`"); [|split; [done|lia]].
  destruct s as [|c s]; [cbn; split; [done|lia]|].
  rewrite startswith_tick_cons. cbn [Py.leading_ticks Py.startswith].
  destruct (Ascii.eqb c "`"); split; (done || lia).
Qed.

(** A replacement whose text does not begin with a backtick never makes
    the run of backticks at the head of a text longer. *)
Lemma replace_leading_ticks (old new s : string) (x : ascii) (n : string) :
  new = String x n -> Ascii.eqb x "`" = false ->
  Py.leading_ticks (Py.replace old new s) <= Py.leading_ticks s.
Proof.
  intros -> Hx. unfold Py.replace. induction s as [|c t IH]; [done|].
  cbn [Py.replace_from]. destruct (Py.startswith (String c t) old).
  - rewrite string_app_cons. cbn [Py.leading_ticks]. rewrite Hx. lia.
  - cbn [Py.leading_ticks]. destruct (Ascii.eqb c "`"); lia.
Qed.

Lemma contains_app_r (p a b : string) :
  Py.contains p (a +:+ b) = false -> Py.contains p b = false.
Proof.
  induction a as [|c a IH]; [done|]. rewrite string_app_cons. cbn [Py.contains].
  intros H. apply orb_false_elim in H as [_ H]. by apply IH.
Qed.

Lemma string_length_app (a b : string) :
  String.length (a +:+ b) = String.length a + String.length b.
Proof. induction a as [|c a IH]; [done|]. rewrite string_app_cons. cbn. by rewrite IH. Qed.

Lemma replace_ticks_by_length (n : nat) :
  forall s, String.length s <= n -> Py.contains "```" (Py.replace "```" "===" s) = false.
Proof.
  induction n as [|n IH]; intros s Hn.
  { destruct s; [done|cbn in Hn; lia]. }
  destruct s as [|c t]; [done|].
  destruct (Py.startswith (String c t) "```") eqn:Hs.
  - apply startswith_split in Hs as [rest E]. rewrite E, replace_match.
    cbn. apply IH. apply (f_equal String.length) in E.
    rewrite string_length_app in E. cbn in E, Hn. lia.
  - rewrite replace_no_match by done. cbn [Py.contains].
    rewrite IH by (cbn in Hn; lia). rewrite orb_false_r.
    destruct (Py.startswith (String c (Py.replace "```" "===" t)) "```") eqn:Hr; [|done].
    apply startswith_ticks in Hr.
    pose proof (replace_leading_ticks "```" "===" (String c t) "=" "==" eq_refl eq_refl) as Hl.
    rewrite replace_no_match in Hl by done.
    assert (3 <= Py.leading_ticks (String c t)) as H3 by lia.
    apply startswith_ticks in H3. congruence.
Qed.

Lemma replace_quote_by_length (n : nat) :
  forall s, String.length s <= n ->
    Py.contains "```" s = false ->
    Py.contains "```" (Py.replace "> **" "**" s) = false.
Proof.
  induction n as [|n IH]; intros s Hn Hc.
  { destruct s; [done|cbn in Hn; lia]. }
  destruct s as [|c t]; [done|].
  destruct (Py.startswith (String c t) "> **") eqn:Hs.
  - apply startswith_split in Hs as [rest E]. rewrite E, replace_match.
    rewrite E in Hc. apply contains_app_r in Hc.
    cbn. apply IH; [|done]. apply (f_equal String.length) in E.
    rewrite string_length_app in E. cbn in E, Hn. lia.
  - rewrite replace_no_match by done. cbn [Py.contains] in Hc |- *.
    apply orb_false_elim in Hc as [Hh Ht].
    rewrite IH by (done || cbn in Hn; lia). rewrite orb_false_r.
    destruct (Py.startswith (String c (Py.replace "> **" "**" t)) "```") eqn:Hr; [|done].
    apply startswith_ticks in Hr.
    pose proof (replace_leading_ticks "> **" "**" (String c t) "*" "*" eq_refl eq_refl) as Hl.
    rewrite replace_no_match in Hl by done.
    assert (3 <= Py.leading_ticks (String c t)) as H3 by lia.
    apply startswith_ticks in H3. congruence.
Qed.

(** X13.  The text that [parse_text] hands to the Markdown converter has
    no code fence: whatever the reply is, three backticks in a row do not
    occur in it after the two replacements of lines 92 and 94. *)
Theorem reply_to_convert_has_no_fence (reply : string) :
  Py.contains "```" (Api.reply_to_convert reply) = false.
Proof.
  unfold Api.reply_to_convert.
  apply (replace_quote_by_length _ _ (le_n _)).
  apply (replace_ticks_by_length _ _ (le_n _)).
Qed.

(** ** The further properties on concrete inputs *)

Local Ltac closed_marker_complete :=
  let H := fresh in
  intros H; vm_compute in H |- *; first [discriminate H | reflexivity].

(** ["VC-1"] is a video codec and in no other category. *)
Lemma codec_categories_exclusive_witness :
  CodecsParser.is_video CodecsParser.__init__ "VC-1" = true
  /\ CodecsParser.is_audio CodecsParser.__init__ "VC-1" = false
  /\ CodecsParser.is_sub CodecsParser.__init__ "VC-1" = false
  /\ CodecsParser.is_chapter CodecsParser.__init__ "VC-1" = false.
Proof.
  split; [reflexivity|].
  pose proof (codec_categories_exclusive "VC-1") as H. cbv zeta in H.
  apply (proj1 H). reflexivity.
Defined.

(** The extension of ["DTS"] begins with a dot, that of ["E-AC3"] does
    not. *)
Lemma codec_ext_dot_but_eac3_witness :
  (fst (CodecsParser.get_codec_ext CodecsParser.__init__ "DTS")
   = Ok (CodecsParser.PyStr ".dts")
   /\ (Py.startswith ".dts" "." = true <-> "DTS" <> "E-AC3"))
  /\ (fst (CodecsParser.get_codec_ext CodecsParser.__init__ "E-AC3")
      = Ok (CodecsParser.PyStr "eac3")
      /\ (Py.startswith "eac3" "." = true <-> "E-AC3" <> "E-AC3")).
Proof.
  split; (split; [reflexivity|]).
  - apply (codec_ext_dot_but_eac3 "DTS" ".dts"). reflexivity.
  - apply (codec_ext_dot_but_eac3 "E-AC3" "eac3"). reflexivity.
Defined.

(** The two subtitle codecs share the extension [".sup"]. *)
Lemma codec_ext_tells_codec_witness :
  fst (CodecsParser.get_codec_ext CodecsParser.__init__ "Subtitle (PGS)")
  = Ok (CodecsParser.PyStr ".sup")
  /\ fst (CodecsParser.get_codec_ext CodecsParser.__init__ "Subtitle (DVD)")
     = Ok (CodecsParser.PyStr ".sup")
  /\ ("Subtitle (PGS)" = "Subtitle (DVD)"
      \/ (CodecsParser.is_sub CodecsParser.__init__ "Subtitle (PGS)" = true
          /\ CodecsParser.is_sub CodecsParser.__init__ "Subtitle (DVD)" = true)).
Proof.
  split; [reflexivity|]. split; [reflexivity|].
  apply (codec_ext_tells_codec "Subtitle (PGS)" "Subtitle (DVD)" ".sup"); reflexivity.
Defined.

(** ["FLAC Audio"] has the title name ["FLAC"] and an extension. *)
Lemma title_names_distinct_witness :
  fst (CodecsParser.get_audio_codec_title_name CodecsParser.__init__ "FLAC Audio")
  = Ok (CodecsParser.PyStr "FLAC")
  /\ fst (CodecsParser.get_codec_ext CodecsParser.__init__ "FLAC Audio")
     <> Ok CodecsParser.PyFalse
  /\ "FLAC Audio" = "FLAC Audio".
Proof.
  split; [reflexivity|]. split; [discriminate|].
  apply (proj2 (title_names_distinct "FLAC Audio" "FLAC Audio" "FLAC"));
    [reflexivity|discriminate].
Defined.

(** A [mediainfo] block, a blank line and a log that is closed: the blank
    line, the ["Done."] line and the line after it are in neither
    sequence. *)
Lemma raw_lines_kept_in_order_witness :
  parse_lines_id blank_config ["General"; "a"; ""; "eac3to v3.34"; "b"; "Done."; "c"]
  = Ok (bdinfo initial, ["General"; "a"], [["eac3to v3.34"; "b"]])
  /\ sublist ["General"; "a"] ["General"; "a"; ""; "eac3to v3.34"; "b"; "Done."; "c"]
  /\ sublist (concat [["eac3to v3.34"; "b"]])
       ["General"; "a"; ""; "eac3to v3.34"; "b"; "Done."; "c"]
  /\ Forall (fun l => Py.truthy (Py.strip l) = true)
       (["General"; "a"] ++ concat [["eac3to v3.34"; "b"]])
  /\ length ["General"; "a"] + length (concat [["eac3to v3.34"; "b"]])
     <= length ["General"; "a"; ""; "eac3to v3.34"; "b"; "Done."; "c"].
Proof.
  split; [reflexivity|].
  apply (raw_lines_kept_in_order id id id id blank_config
           ["General"; "a"; ""; "eac3to v3.34"; "b"; "Done."; "c"] (bdinfo initial)).
  reflexivity.
Defined.

(** Two logs, the second left open: each begins with its header. *)
Lemma logs_begin_with_header_witness :
  parse_lines_id blank_config ["eac3to v3.34"; "a"; "Done."; "x"; "EAC3TO V3.34"; "b"]
  = Ok (bdinfo initial, [], [["eac3to v3.34"; "a"]; ["EAC3TO V3.34"; "b"]])
  /\ Forall log_with_header [["eac3to v3.34"; "a"]; ["EAC3TO V3.34"; "b"]].
Proof.
  split; [reflexivity|].
  apply (logs_begin_with_header id id id id blank_config
           ["eac3to v3.34"; "a"; "Done."; "x"; "EAC3TO V3.34"; "b"] (bdinfo initial) []).
  reflexivity.
Defined.

(** Track lines under a [mediainfo] heading, with no report heading
    before them, are raw lines and give no track. *)
Lemma tracks_need_report_heading_witness :
  parse_lines_id blank_config ["General"; "Video: x"; "Audio: y"]
  = Ok (bdinfo initial, ["General"; "Video: x"; "Audio: y"], [])
  /\ type_ (bdinfo initial) = None
  /\ video (bdinfo initial) = [] /\ audio (bdinfo initial) = []
  /\ subtitle (bdinfo initial) = [].
Proof.
  split; [reflexivity|].
  pose proof (tracks_need_report_heading id id id id blank_config
                ["General"; "Video: x"; "Audio: y"] (bdinfo initial)
                ["General"; "Video: x"; "Audio: y"] [] eq_refl) as [H1 H2].
  split.
  - apply H2. repeat constructor.
  - apply H1. reflexivity.
Defined.

(** With the mode ["contains"] and no cutoff text a Quick Summary that
    gives a video entry otherwise gives nothing. *)
Lemma empty_contains_cutoff_returns_nothing_witness :
  parse_id blank_config (text_of ["Quick Summary"; "Video: x"])
  = Ok ({| video := [" x"]; audio := []; subtitle := [];
           type_ := Some BD_QUICK_SUMMARY |}, [], [])
  /\ parse_id (PasteParser.mk_config "" "contains" [""])
       (text_of ["Quick Summary"; "Video: x"])
     = Ok (bdinfo initial, [], []).
Proof.
  split; [reflexivity|].
  apply (empty_contains_cutoff_returns_nothing id id id id
           (PasteParser.mk_config "" "contains" [""])); reflexivity.
Defined.

(** The prefix ["Screens"] is not triggered by the line ["Screens:"],
    which the prefix ["screens"] is. *)
Lemma prefix_not_lower_never_matches_witness :
  skip_trigger (PasteParser.mk_config "" "" ["screens"]) "Screens:" = true
  /\ skip_trigger (PasteParser.mk_config "" "" ["Screens"]) "Screens:" = false
  /\ check_prefixes (PasteParser.mk_config "" "" ["Screens"]) initial "Screens:" = initial.
Proof.
  split; [reflexivity|].
  apply (prefix_not_lower_never_matches (PasteParser.mk_config "" "" ["Screens"])).
  repeat constructor. discriminate.
Defined.

(** Padded values of the three variables are stored without the padding,
    and with the mode ["equals"] the cutoff line ["END"] is its own
    stripped form. *)
Lemma loaded_config_is_stripped_witness :
  load_config (PasteParser.mk_environ (Some "  END ") (Some " equals ")
                 (Some " screens , Comparison "))
  = Ok (PasteParser.mk_config "END" "equals" ["screens"; "Comparison"])
  /\ _isIgnoreAfterLine (PasteParser.mk_config "END" "equals" ["screens"; "Comparison"]) "END"
     = true
  /\ Py.strip "END" = "END".
Proof.
  split; [reflexivity|]. split; [reflexivity|].
  apply (proj2 (proj2 (proj2 (proj2
           (loaded_config_is_stripped
              (PasteParser.mk_environ (Some "  END ") (Some " equals ")
                 (Some " screens , Comparison "))
              (PasteParser.mk_config "END" "equals" ["screens"; "Comparison"])
              eq_refl))))); reflexivity.
Defined.

(** The remark in parentheses of an audio line is not in the entry. *)
Lemma quick_summary_audio_drops_remark_witness :
  sect (with_sect (Some QUICK_SUMMARY) initial) = Some QUICK_SUMMARY
  /\ Py.contains marker_test
       (Py.lower (Py.strip " English / DTS-HD Master Audio / 5.1 (48 kHz / 24-bit)")) = false
  /\ PasteParser.classify id id id id (with_sect (Some QUICK_SUMMARY) initial)
       "Audio: English / DTS-HD Master Audio / 5.1 (48 kHz / 24-bit)"
     = Ok (append_audio " English / DTS-HD Master Audio / 5.1"
             (with_sect (Some QUICK_SUMMARY) initial))
  /\ exists key after,
      Py.split_char_1 ":" "Audio: English / DTS-HD Master Audio / 5.1 (48 kHz / 24-bit)"
      = [key; after]
      /\ (Py.contains marker_test (Py.lower (Py.strip after)) = false ->
          exists cut cuts k name,
            Py.split_char "(" "Audio: English / DTS-HD Master Audio / 5.1 (48 kHz / 24-bit)"
            = cut :: cuts
            /\ Py.split_char_1 ":" (Py.strip cut) = [k; name]
            /\ Py.contains "(" name = false
            /\ PasteParser.classify id id id id (with_sect (Some QUICK_SUMMARY) initial)
                 "Audio: English / DTS-HD Master Audio / 5.1 (48 kHz / 24-bit)"
               = Ok (append_audio (id name) (with_sect (Some QUICK_SUMMARY) initial))).
Proof.
  split; [reflexivity|]. split; [reflexivity|]. split; [reflexivity|].
  apply (quick_summary_audio_drops_remark id id id id
           (with_sect (Some QUICK_SUMMARY) initial)
           "Audio: English / DTS-HD Master Audio / 5.1 (48 kHz / 24-bit)"); reflexivity.
Defined.

(** A paste with a whole marker, on which the parser returns. *)
Lemma parse_returns_witness :
  Forall markers_complete
    (Py.splitlines
       (text_of ["Quick Summary"; "Audio: English / DTS (ac3 embedded: 2.0)"; "General"; "x"]))
  /\ exists r,
      parse_id blank_config
        (text_of ["Quick Summary"; "Audio: English / DTS (ac3 embedded: 2.0)"; "General"; "x"])
      = Ok r.
Proof.
  assert (Forall markers_complete
            (Py.splitlines
               (text_of ["Quick Summary"; "Audio: English / DTS (ac3 embedded: 2.0)";
                         "General"; "x"]))) as H.
  { change (Forall markers_complete
              ["Quick Summary"; "Audio: English / DTS (ac3 embedded: 2.0)"; "General"; "x"]).
    repeat constructor; try closed_marker_complete;
      (intros key after E; vm_compute in E;
       first [discriminate E | injection E as <- <-; closed_marker_complete]). }
  split; [exact H|]. apply (parse_returns id id id id blank_config _ H).
Defined.

(** A [mediainfo] block with blank lines inside it is the block without
    them. *)
Lemma blank_lines_are_inert_witness :
  prefixes_enabled blank_config = false
  /\ parse_lines_id blank_config ["General"; ""; "a"; "  "; "b"]
     = parse_lines_id blank_config ["General"; "a"; "b"]
  /\ parse_lines_id blank_config ["General"; "a"; "b"]
     = Ok (bdinfo initial, ["General"; "a"; "b"], []).
Proof.
  split; [reflexivity|]. split; [|reflexivity].
  apply (blank_lines_are_inert id id id id blank_config ["General"; ""; "a"; "  "; "b"]).
  - reflexivity.
  - repeat constructor.
Defined.

(** A paste with a Quick Summary, a [mediainfo] block and a log: the
    block and the log, parsed alone, come back as they are. *)
Lemma raw_blocks_parse_to_themselves_witness :
  parse_lines_id blank_config
    ["Quick Summary"; "Video: x"; "General"; "a"; "eac3to v3.34"; "b"; "Done."]
  = Ok ({| video := [" x"]; audio := []; subtitle := [];
           type_ := Some BD_QUICK_SUMMARY |},
        ["General"; "a"], [["eac3to v3.34"; "b"]])
  /\ parse_lines_id blank_config ["General"; "a"]
     = Ok (bdinfo initial, ["General"; "a"], [])
  /\ Forall (fun log => parse_lines_id blank_config log = Ok (bdinfo initial, [], [log]))
       [["eac3to v3.34"; "b"]].
Proof.
  split; [reflexivity|].
  apply (raw_blocks_parse_to_themselves id id id id blank_config
           ["Quick Summary"; "Video: x"; "General"; "a"; "eac3to v3.34"; "b"; "Done."]
           {| video := [" x"]; audio := []; subtitle := [];
              type_ := Some BD_QUICK_SUMMARY |}).
  - reflexivity.
  - repeat constructor.
Defined.

(** A row of the audio table with a compatibility track of four fields:
    the compatibility entry has the first three.  A row with two markers:
    the entry is made of the text between them. *)
Lemma playlist_compatibility_track_witness :
  sect in_audio_table = Some PLAYLIST_REPORT
  /\ Py.contains marker_pattern (Py.lower compat_row) = true
  /\ PasteParser.classify id id id id in_audio_table compat_row
     = Ok (append_audio "Compatibility Track / Dolby Digital Audio / 5.1 / 48 kHz / 640 kbps"
             (append_audio compat_row in_audio_table))
  /\ PasteParser.classify id id id id in_audio_table
       "DTS  English (ac3 embedded: A / B / C) (AC3 Embedded: D / E)"
     = Ok (append_audio "Compatibility Track / Dolby Digital Audio / A / B"
             (append_audio "DTS  English (ac3 embedded: A / B / C) (AC3 Embedded: D / E)"
                in_audio_table))
  /\ (exists pre m rest post,
        first_marker compat_row pre m rest
        /\ ((Py.contains marker_pattern (Py.lower rest) = false /\ post = rest)
            \/ exists m' rest', first_marker rest post m' rest')
        /\ PasteParser.classify id id id id in_audio_table compat_row
           = Ok (append_audio
                   (compat_prefix
                    +:+ Py.rstrip_paren
                          (Py.strip (Py.join "/" (Py.drop_last (Py.split_char "/" post)))))
                   (append_audio compat_row in_audio_table))
        /\ (Py.contains "/" post = false ->
            PasteParser.classify id id id id in_audio_table compat_row
            = Ok (append_audio compat_prefix (append_audio compat_row in_audio_table))))
  /\ exists pre m rest post,
      first_marker "DTS  English (ac3 embedded: A / B / C) (AC3 Embedded: D / E)" pre m rest
      /\ ((Py.contains marker_pattern (Py.lower rest) = false /\ post = rest)
          \/ exists m' rest', first_marker rest post m' rest')
      /\ PasteParser.classify id id id id in_audio_table
           "DTS  English (ac3 embedded: A / B / C) (AC3 Embedded: D / E)"
         = Ok (append_audio
                 (compat_prefix
                  +:+ Py.rstrip_paren
                        (Py.strip (Py.join "/" (Py.drop_last (Py.split_char "/" post)))))
                 (append_audio "DTS  English (ac3 embedded: A / B / C) (AC3 Embedded: D / E)"
                    in_audio_table))
      /\ (Py.contains "/" post = false ->
          PasteParser.classify id id id id in_audio_table
            "DTS  English (ac3 embedded: A / B / C) (AC3 Embedded: D / E)"
          = Ok (append_audio compat_prefix
                  (append_audio
                     "DTS  English (ac3 embedded: A / B / C) (AC3 Embedded: D / E)"
                     in_audio_table))).
Proof.
  split; [reflexivity|]. split; [reflexivity|]. split; [reflexivity|].
  split; [reflexivity|]. split.
  - exact (playlist_compatibility_track id id id id in_audio_table compat_row
             eq_refl eq_refl eq_refl eq_refl eq_refl eq_refl eq_refl).
  - exact (playlist_compatibility_track id id id id in_audio_table
             "DTS  English (ac3 embedded: A / B / C) (AC3 Embedded: D / E)"
             eq_refl eq_refl eq_refl eq_refl eq_refl eq_refl eq_refl).
Defined.
